(** * VecEnvBase: the gym adapter of omni.isaac.gym, embedded in Rocq

    The source is [omni.isaac.gym.vec_env/vec_env_base.py].  The class
    [VecEnvBase] owns almost no logic of its own: every method is a short
    sequence of calls into the simulation host (the [SimulationApp], the
    [World], the seeding utility, the gym base class) and into the task
    object that was registered with [set_task].

    The embedding therefore is a state-and-exception monad.  Its state has
    three parts: the attributes of [self], the state of everything outside
    the adapter (the host), and the list of external calls made so far.  An
    exception raised by an external call aborts the method and leaves the
    attributes as they were when it was raised, as in Python. *)

From Stdlib Require Import ZArith String List Lia.
From Stdlib Require Import Floats.PrimFloat.
From stdpp Require Import base option list gmap strings.

Local Open Scope string_scope.
Local Open Scope list_scope.
Local Open Scope Z_scope.

(** ** Python values, exceptions and outcomes *)

Module Python.

Inductive Exn : Type :=
| KeyError (key : string)
| AttributeError (attr : string)
| TypeError (msg : string)
| ValueError (msg : string)
| NotImplementedError
| HostError (msg : string).

Inductive Outcome (A : Type) : Type :=
| Normal (a : A)
| Raise (e : Exn).

Arguments Normal {A} a.
Arguments Raise {A} e.

(** The values found in a [sim_params] dictionary.  A value that is none
    of the first five is a [PyObject], known by what its truth test does:
    it gives [True] or [False], or raises (a numpy array of several
    elements raises [ValueError]). *)
Inductive PyVal : Type :=
| PyNone
| PyBool (b : bool)
| PyInt (z : Z)
| PyFloat (f : float)
| PyStr (s : string)
| PyObject (truth : Outcome bool).

(** Python truth value testing: [None], [False], zero and the empty
    string are false, the other scalars are true ([nan] included), and an
    object answers for itself. *)
Definition truthy (v : PyVal) : Outcome bool :=
  match v with
  | PyNone => Normal false
  | PyBool b => Normal b
  | PyInt z => Normal (negb (Z.eqb z 0))
  | PyFloat f => Normal (negb (PrimFloat.eqb f 0%float))
  | PyStr s => Normal (negb (String.eqb s ""))
  | PyObject truth => truth
  end.

(** A dictionary is true when it is not empty. *)
Definition dict_truthy {V : Type} (d : gmap string V) : bool :=
  negb (Nat.eqb (size d) 0).

(** [key in d]. *)
Definition dict_contains {V : Type} (key : string) (d : gmap string V) : bool :=
  bool_decide (is_Some (d !! key)).

(** What [set_task] may be given as [sim_params]: [None], a dictionary, or
    any other object.  [set_task] does three things with it: it tests its
    truth, asks whether a key is in it, and subscripts it; an object is
    known by what these three do. *)
Inductive SimParams : Type :=
| ParamsNone
| ParamsDict (d : gmap string PyVal)
| ParamsObject (truth : Outcome bool) (contains : string -> Outcome bool)
    (getitem : string -> Outcome PyVal).

(** [bool(sim_params)] *)
Definition params_truth (sim_params : SimParams) : Outcome bool :=
  match sim_params with
  | ParamsNone => Normal false
  | ParamsDict d => Normal (dict_truthy d)
  | ParamsObject truth _ _ => truth
  end.

(** [key in sim_params] *)
Definition params_contains (sim_params : SimParams) (key : string) : Outcome bool :=
  match sim_params with
  | ParamsNone => Raise (TypeError "argument of type 'NoneType' is not iterable")
  | ParamsDict d => Normal (dict_contains key d)
  | ParamsObject _ contains _ => contains key
  end.

(** [sim_params[key]] *)
Definition params_getitem (sim_params : SimParams) (key : string) : Outcome PyVal :=
  match sim_params with
  | ParamsNone => Raise (TypeError "'NoneType' object is not subscriptable")
  | ParamsDict d =>
      match d !! key with
      | Some v => Normal v
      | None => Raise (KeyError key)
      end
  | ParamsObject _ _ getitem => getitem key
  end.

(** [sim_params] is true, has [key], and the value under [key] has the
    truth value [b]. *)
Definition key_is (sim_params : SimParams) (key : string) (b : bool) : Prop :=
  params_truth sim_params = Normal true
  /\ params_contains sim_params key = Normal true
  /\ exists v, params_getitem sim_params key = Normal v /\ truthy v = Normal b.

(** [sim_params] is false ([None], an empty dictionary), or is true and
    does not have [key]. *)
Definition key_absent (sim_params : SimParams) (key : string) : Prop :=
  params_truth sim_params = Normal false
  \/ (params_truth sim_params = Normal true
      /\ params_contains sim_params key = Normal false).

(** [key] read as a flag: the truth value of its entry, or [default] when
    there is no entry.  No [b] is read when one of the tests raises. *)
Definition reads_flag (sim_params : SimParams) (key : string) (default b : bool) : Prop :=
  key_is sim_params key b \/ (b = default /\ key_absent sim_params key).

End Python.

Import Python.

(** Objects of the host are known to the adapter by their identity. *)
Definition AppRef : Type := nat.
Definition WorldRef : Type := nat.

(** ** The task interface

    [set_task] receives an [RLTask].  The adapter reads three attributes of
    it and calls five of its methods; each method runs in the host and may
    raise.  The three attributes are data of the task object: the adapter
    never assigns them, and nothing it calls between the entry of [set_task]
    and its reads is taken to assign them.  [name] is the task's name, by
    which the call log tells tasks apart. *)

Module RLTask.
Section Interface.
Context {Host Buffer Space : Type}.

Record t : Type := {
  name : string;
  num_envs : Z;
  observation_space : Space;
  action_space : Space;
  pre_physics_step : Buffer -> Host -> Outcome unit * Host;
  get_observations : Host -> Outcome Buffer * Host;
  calculate_metrics : Host -> Outcome Buffer * Host;
  is_done : Host -> Outcome Buffer * Host;
  reset : Host -> Outcome unit * Host
}.

End Interface.
Arguments t : clear implicits.
End RLTask.

(** ** The simulation host

    What the adapter imports: [os.environ], [SimulationApp], [carb.settings],
    [World], the extension manager, [omni.usd], [gym.Env.render] and
    [set_seed].  Their code is not part of the repository, so each is a field
    of a record the development is parametric in: a function on the host
    state that returns or raises.  None of them is handed a way to assign
    the adapter's attributes ([gym.Env.render] receives [self], and the base
    class assigns nothing), so an external call changes the host only.

    [World] takes [stage_units_in_meters], [rendering_dt], [backend],
    [sim_params] and [device], in the order of the source's keywords;
    [root_layer_clear] is the chain
    [omni.usd.get_context().get_stage().GetRootLayer().Clear()]. *)

Module Isaac.
Section Interface.
Context {Host Buffer Space : Type}.

Record api : Type := {
  environ : Host -> gmap string string;
  SimulationApp : bool -> Z -> string -> Host -> Outcome AppRef * Host;
  settings_set : string -> bool -> Host -> Outcome unit * Host;
  World : float -> float -> string -> SimParams -> string ->
          Host -> Outcome WorldRef * Host;
  add_task : WorldRef -> RLTask.t Host Buffer Space -> Host -> Outcome unit * Host;
  world_reset : WorldRef -> Host -> Outcome unit * Host;
  world_step : WorldRef -> bool -> Host -> Outcome unit * Host;
  world_render : WorldRef -> Host -> Outcome unit * Host;
  set_extension_enabled_immediate : string -> bool -> Host -> Outcome unit * Host;
  gym_Env_render : string -> Host -> Outcome unit * Host;
  root_layer_clear : Host -> Outcome unit * Host;
  simulation_app_close : AppRef -> Host -> Outcome unit * Host;
  set_seed : Z -> Host -> Outcome Z * Host
}.

End Interface.
Arguments api : clear implicits.
End Isaac.

(** ** The machine: attributes of [self], host state, and the call log *)

(** One entry per external call, with the arguments the adapter passed. *)
Inductive Call {Buffer : Type} : Type :=
| CallEnvironGet (key : string)
| CallSimulationApp (headless : bool) (physics_device : Z) (experience : string)
| CallSettingsSet (path : string) (value : bool)
| CallWorld (stage_units_in_meters rendering_dt : float) (backend : string)
    (sim_params : SimParams) (device : string)
| CallAddTask (w : WorldRef) (task : string)
| CallWorldReset (w : WorldRef)
| CallWorldStep (w : WorldRef) (render : bool)
| CallWorldRender (w : WorldRef)
| CallPrePhysicsStep (task : string) (actions : Buffer)
| CallGetObservations (task : string)
| CallCalculateMetrics (task : string)
| CallIsDone (task : string)
| CallTaskReset (task : string)
| CallSetExtensionEnabled (ext : string) (enabled : bool)
| CallGymEnvRender (mode : string)
| CallRootLayerClear
| CallAppClose (app : AppRef)
| CallSetSeed (seed : Z).

Arguments Call : clear implicits.

Record Machine {S Host Buffer : Type} : Type := {
  self : S;
  host : Host;
  calls : list (Call Buffer)
}.

Arguments Machine : clear implicits.

Definition M (S Host Buffer A : Type) : Type :=
  Machine S Host Buffer -> Outcome A * Machine S Host Buffer.

Section Monad.
Context {S Host Buffer : Type}.

#[export] Instance M_ret : MRet (M S Host Buffer) :=
  fun A a m => (Normal a, m).

#[export] Instance M_bind : MBind (M S Host Buffer) :=
  fun A B k c m =>
    match c m with
    | (Normal a, m') => k a m'
    | (Raise e, m') => (Raise e, m')
    end.

Definition raise {A : Type} (e : Exn) : M S Host Buffer A :=
  fun m => (Raise e, m).

(** A computation on Python values alone: it returns or raises and
    touches neither the adapter nor the host. *)
Definition lift {A : Type} (o : Outcome A) : M S Host Buffer A :=
  fun m => (o, m).

Definition get_self : M S Host Buffer S :=
  fun m => (Normal (self m), m).

Definition put_self (s : S) : M S Host Buffer unit :=
  fun m => (Normal tt, {| self := s; host := host m; calls := calls m |}).

(** [self.attr]: an attribute that was never assigned raises. *)
Definition getattr {A : Type} (attr : string) (f : S -> option A) : M S Host Buffer A :=
  fun m =>
    match f (self m) with
    | Some a => (Normal a, m)
    | None => (Raise (AttributeError attr), m)
    end.

(** A call that leaves the adapter: it is logged, then runs in the host. *)
Definition extern {A : Type} (c : Call Buffer) (f : Host -> Outcome A * Host)
  : M S Host Buffer A :=
  fun m =>
    let (r, h) := f (host m) in
    (r, {| self := self m; host := h; calls := calls m ++ [c] |}).

Definition modify_self (f : S -> S) : M S Host Buffer unit :=
  s ← get_self; put_self (f s).

(** [d[key]] on a dictionary of the host, logged as [c]. *)
Definition getitem {V : Type} (c : Call Buffer) (d : Host -> gmap string V) (key : string)
  : M S Host Buffer V :=
  extern c (fun h =>
    match d h !! key with
    | Some v => (Normal v, h)
    | None => (Raise (KeyError key), h)
    end).

End Monad.

(** ** The adapter *)

Module VecEnvBase.
Section Adapter.
Context {Host Buffer Space : Type}.
Variable sim : Isaac.api Host Buffer Space.

(** The attributes of an instance.  [__init__] assigns the first three;
    the others do not exist until [set_task] assigns them. *)
Record t : Type := {
  _simulation_app : AppRef;
  _render : bool;
  sim_frame_count : Z;
  _world : option WorldRef;
  _task : option (RLTask.t Host Buffer Space);
  _num_envs : option Z;
  observation_space : option Space;
  action_space : option Space
}.

Definition set_sim_frame_count (n : Z) (s : t) : t :=
  {| _simulation_app := _simulation_app s; _render := _render s;
     sim_frame_count := n;
     _world := _world s; _task := _task s; _num_envs := _num_envs s;
     observation_space := observation_space s; action_space := action_space s |}.

Definition set__world (w : WorldRef) (s : t) : t :=
  {| _simulation_app := _simulation_app s; _render := _render s;
     sim_frame_count := sim_frame_count s;
     _world := Some w; _task := _task s; _num_envs := _num_envs s;
     observation_space := observation_space s; action_space := action_space s |}.

Definition set__task (task : RLTask.t Host Buffer Space) (s : t) : t :=
  {| _simulation_app := _simulation_app s; _render := _render s;
     sim_frame_count := sim_frame_count s;
     _world := _world s; _task := Some task; _num_envs := _num_envs s;
     observation_space := observation_space s; action_space := action_space s |}.

Definition set__num_envs (n : Z) (s : t) : t :=
  {| _simulation_app := _simulation_app s; _render := _render s;
     sim_frame_count := sim_frame_count s;
     _world := _world s; _task := _task s; _num_envs := Some n;
     observation_space := observation_space s; action_space := action_space s |}.

Definition set_observation_space (sp : Space) (s : t) : t :=
  {| _simulation_app := _simulation_app s; _render := _render s;
     sim_frame_count := sim_frame_count s;
     _world := _world s; _task := _task s; _num_envs := _num_envs s;
     observation_space := Some sp; action_space := action_space s |}.

Definition set_action_space (sp : Space) (s : t) : t :=
  {| _simulation_app := _simulation_app s; _render := _render s;
     sim_frame_count := sim_frame_count s;
     _world := _world s; _task := _task s; _num_envs := _num_envs s;
     observation_space := observation_space s; action_space := Some sp |}.

Definition headless_kit : string := "/omni.isaac.sim.python.gym.headless.kit".
Definition instancing_setting : string := "/persistent/omnihydra/useSceneGraphInstancing".
Definition viewport_extension : string := "omni.kit.window.viewport".

(** [__init__(self, headless, sim_device=0)].  It runs before the object
    has attributes and yields them. *)
Definition __init__ (headless : bool) (sim_device : Z) : M unit Host Buffer t :=
  experience ←
    (if headless
     then p ← getitem (CallEnvironGet "EXP_PATH") (Isaac.environ sim) "EXP_PATH";
          mret (p ++ headless_kit)%string
     else mret "");
  app ← extern (CallSimulationApp headless sim_device experience)
               (Isaac.SimulationApp sim headless sim_device experience);
  extern (CallSettingsSet instancing_setting true)
         (Isaac.settings_set sim instancing_setting true);;
  mret {| _simulation_app := app; _render := negb headless; sim_frame_count := 0;
          _world := None; _task := None; _num_envs := None;
          observation_space := None; action_space := None |}.

(** [sim_params and key in sim_params]: the membership test runs only
    when [sim_params] is true. *)
Definition has_param (sim_params : SimParams) (key : string) : M t Host Buffer bool :=
  present ← lift (params_truth sim_params);
  if (present : bool) then lift (params_contains sim_params key) else mret false.

(** [sim_params[key]]. *)
Definition param (sim_params : SimParams) (key : string) : M t Host Buffer PyVal :=
  lift (params_getitem sim_params key).

(** The device choice at the head of [set_task]: ["cpu"] unless
    [sim_params] asks for the GPU pipeline. *)
Definition select_device (sim_params : SimParams) : M t Host Buffer string :=
  let device := "cpu" in
  guard ← has_param sim_params "use_gpu_pipeline";
  if (guard : bool)
  then v ← param sim_params "use_gpu_pipeline";
       use_gpu ← lift (truthy v);
       if (use_gpu : bool) then mret "cuda" else mret device
  else mret device.

(** The viewport block of [set_task].  The chain
    [omni.kit.app.get_app().get_extension_manager()] is part of the one
    call to the extension manager. *)
Definition disable_viewport (sim_params : SimParams) : M t Host Buffer unit :=
  guard ← has_param sim_params "enable_viewport";
  if (guard : bool)
  then v ← param sim_params "enable_viewport";
       enabled ← lift (truthy v);
       if negb enabled
       then extern (CallSetExtensionEnabled viewport_extension false)
                   (Isaac.set_extension_enabled_immediate sim viewport_extension false)
       else mret tt
  else mret tt.

(** [set_task(self, task, backend="numpy", sim_params=None, init_sim=True)] *)
Definition set_task (task : RLTask.t Host Buffer Space) (backend : string)
    (sim_params : SimParams) (init_sim : bool) : M t Host Buffer unit :=
  device ← select_device sim_params;
  w ← extern (CallWorld 1 (1 / 60) backend sim_params device)
             (Isaac.World sim 1 (1 / 60) backend sim_params device);
  modify_self (set__world w);;
  w ← getattr "_world" _world;
  extern (CallAddTask w (RLTask.name task)) (Isaac.add_task sim w task);;
  modify_self (set__task task);;
  task' ← getattr "_task" _task;
  modify_self (set__num_envs (RLTask.num_envs task'));;
  task' ← getattr "_task" _task;
  modify_self (set_observation_space (RLTask.observation_space task'));;
  task' ← getattr "_task" _task;
  modify_self (set_action_space (RLTask.action_space task'));;
  disable_viewport sim_params;;
  if init_sim
  then w ← getattr "_world" _world;
       extern (CallWorldReset w) (Isaac.world_reset sim w)
  else mret tt.

(** [render(self, mode="human")] *)
Definition render (mode : string) : M t Host Buffer unit :=
  if String.eqb mode "human"
  then w ← getattr "_world" _world;
       extern (CallWorldRender w) (Isaac.world_render sim w)
  else extern (CallGymEnvRender mode) (Isaac.gym_Env_render sim mode).

(** [close(self)] *)
Definition close : M t Host Buffer unit :=
  extern CallRootLayerClear (Isaac.root_layer_clear sim);;
  s ← get_self;
  extern (CallAppClose (_simulation_app s))
         (Isaac.simulation_app_close sim (_simulation_app s)).

(** [seed(self, seed=-1)] *)
Definition seed (seed : Z) : M t Host Buffer Z :=
  extern (CallSetSeed seed) (Isaac.set_seed sim seed).

(** [step(self, actions)] *)
Definition step (actions : Buffer)
  : M t Host Buffer (Buffer * Buffer * Buffer * gmap string PyVal) :=
  task ← getattr "_task" _task;
  extern (CallPrePhysicsStep (RLTask.name task) actions)
         (RLTask.pre_physics_step task actions);;
  w ← getattr "_world" _world;
  s ← get_self;
  extern (CallWorldStep w (_render s)) (Isaac.world_step sim w (_render s));;
  modify_self (fun s => set_sim_frame_count (sim_frame_count s + 1) s);;
  task ← getattr "_task" _task;
  observations ← extern (CallGetObservations (RLTask.name task))
                        (RLTask.get_observations task);
  task ← getattr "_task" _task;
  rewards ← extern (CallCalculateMetrics (RLTask.name task))
                   (RLTask.calculate_metrics task);
  task ← getattr "_task" _task;
  dones ← extern (CallIsDone (RLTask.name task)) (RLTask.is_done task);
  let info : gmap string PyVal := ∅ in
  mret (observations, rewards, dones, info).

(** [reset(self)] *)
Definition reset : M t Host Buffer Buffer :=
  task ← getattr "_task" _task;
  extern (CallTaskReset (RLTask.name task)) (RLTask.reset task);;
  w ← getattr "_world" _world;
  s ← get_self;
  extern (CallWorldStep w (_render s)) (Isaac.world_step sim w (_render s));;
  task ← getattr "_task" _task;
  observations ← extern (CallGetObservations (RLTask.name task))
                        (RLTask.get_observations task);
  mret observations.

(** The [num_envs] property. *)
Definition num_envs : M t Host Buffer Z :=
  getattr "_num_envs" _num_envs.

End Adapter.
Arguments t : clear implicits.
End VecEnvBase.

(** ** A client of the adapter

    A training loop calls the methods one after another.  [session] runs a
    list of calls from a machine and goes on after a call that raised, as a
    caller that catches the exception would. *)

Section Client.
Context {Host Buffer Space : Type}.
Variable sim : Isaac.api Host Buffer Space.

Inductive Invocation : Type :=
| InvSetTask (task : RLTask.t Host Buffer Space) (backend : string)
    (sim_params : SimParams) (init_sim : bool)
| InvStep (actions : Buffer)
| InvReset
| InvRender (mode : string)
| InvSeed (seed : Z)
| InvNumEnvs
| InvClose.

Definition invoke (i : Invocation)
  : M (VecEnvBase.t Host Buffer Space) Host Buffer unit :=
  match i with
  | InvSetTask task backend sim_params init_sim =>
      VecEnvBase.set_task sim task backend sim_params init_sim
  | InvStep actions => VecEnvBase.step sim actions;; mret tt
  | InvReset => VecEnvBase.reset sim;; mret tt
  | InvRender mode => VecEnvBase.render sim mode
  | InvSeed seed => VecEnvBase.seed sim seed;; mret tt
  | InvNumEnvs => VecEnvBase.num_envs;; mret tt
  | InvClose => VecEnvBase.close sim
  end.

Fixpoint session (l : list Invocation)
    (m : Machine (VecEnvBase.t Host Buffer Space) Host Buffer)
  : Machine (VecEnvBase.t Host Buffer Space) Host Buffer :=
  match l with
  | [] => m
  | i :: l' => session l' (snd (invoke i m))
  end.

Definition is_step (i : Invocation) : bool :=
  match i with InvStep _ => true | _ => false end.

Definition count_steps (l : list Invocation) : Z :=
  Z.of_nat (length (filter (fun i => is_step i = true) l)).

Definition is_set_task (i : Invocation) : bool :=
  match i with InvSetTask _ _ _ _ => true | _ => false end.

(** Whether [step actions] from machine [m] gets its world tick done:
    there is a task, its pre-physics hook returns, there is a world, and the
    world's step returns. *)
Definition step_ticks (actions : Buffer)
    (m : Machine (VecEnvBase.t Host Buffer Space) Host Buffer) : bool :=
  match VecEnvBase._task (self m), VecEnvBase._world (self m) with
  | Some task, Some w =>
      match RLTask.pre_physics_step task actions (host m) with
      | (Normal _, h1) =>
          match Isaac.world_step sim w (VecEnvBase._render (self m)) h1 with
          | (Normal _, _) => true
          | (Raise _, _) => false
          end
      | (Raise _, _) => false
      end
  | _, _ => false
  end.

(** The number of [step] calls of a session whose world tick gets done. *)
Fixpoint session_ticks (l : list Invocation)
    (m : Machine (VecEnvBase.t Host Buffer Space) Host Buffer) : Z :=
  match l with
  | [] => 0
  | i :: l' =>
      (match i with
       | InvStep actions => if step_ticks actions m then 1 else 0
       | _ => 0
       end)
      + session_ticks l' (snd (invoke i m))
  end.

End Client.

(** Modelled from the spec: the seeding utility [set_seed] of
    [omni.isaac.core.utils.torch.maths], which [seed] imports and whose code
    is not in the repository.  "If value is -1, requests a random seed from
    an external seeding utility; otherwise forwards value verbatim; returns
    whatever seed was actually applied."  [draw] is the utility's source of
    random seeds and [apply] installs a seed in the host's generators. *)
Definition set_seed_model {Host : Type} (draw : Host -> Z * Host)
    (apply : Z -> Host -> Host) (value : Z) (h : Host) : Outcome Z * Host :=
  let (applied, h') := if Z.eqb value (-1) then draw h else (value, h) in
  (Normal applied, apply applied h').

(** ** Observations on the call log *)

Section Log.
Context {S Host Buffer : Type}.

(** The calls made between machine [m] and a later machine [m']. *)
Definition new_calls (m m' : Machine S Host Buffer) : list (Call Buffer) :=
  drop (length (calls m)) (calls m').

Definition is_task_reset (c : Call Buffer) : bool :=
  match c with CallTaskReset _ => true | _ => false end.

Definition is_world_step (c : Call Buffer) : bool :=
  match c with CallWorldStep _ _ => true | _ => false end.

Definition is_world_render (c : Call Buffer) : bool :=
  match c with CallWorldRender _ => true | _ => false end.

Definition is_environ_get (c : Call Buffer) : bool :=
  match c with CallEnvironGet _ => true | _ => false end.

Definition count_calls (p : Call Buffer -> bool) (l : list (Call Buffer)) : nat :=
  length (filter (fun c => p c = true) l).

End Log.

(** ** A mock host and two mock tasks

    The mock keeps the process environment, a tick counter, a count of
    rendered frames, the last seed applied and the next object identity.
    Buffers are lists of integers and a space is its dimension.  Its base
    class refuses every render mode with [NotImplementedError], as the
    [render] of [gym.Env] does ([raise NotImplementedError] is its whole
    body), and its seeding utility is [set_seed_model]. *)

Module Mock.

Record Host : Type := {
  env : gmap string string;
  ticks : Z;
  frames : Z;
  applied_seed : Z;
  entropy : Z;
  next_ref : nat
}.

Definition Buffer : Type := list Z.
Definition Space : Type := nat.

Definition tick (rendered : bool) (h : Host) : Host :=
  {| env := env h; ticks := ticks h + 1;
     frames := if rendered then frames h + 1 else frames h;
     applied_seed := applied_seed h; entropy := entropy h; next_ref := next_ref h |}.

Definition fresh (h : Host) : nat * Host :=
  (next_ref h,
   {| env := env h; ticks := ticks h; frames := frames h;
      applied_seed := applied_seed h; entropy := entropy h;
      next_ref := Datatypes.S (next_ref h) |}).

Definition draw (h : Host) : Z * Host :=
  (entropy h mod 10000,
   {| env := env h; ticks := ticks h; frames := frames h;
      applied_seed := applied_seed h; entropy := entropy h * 75 + 74;
      next_ref := next_ref h |}).

Definition apply (sd : Z) (h : Host) : Host :=
  {| env := env h; ticks := ticks h; frames := frames h;
     applied_seed := sd; entropy := entropy h; next_ref := next_ref h |}.

Definition ok {A : Type} (a : A) (h : Host) : Outcome A * Host := (Normal a, h).

Definition sim : Isaac.api Host Buffer Space := {|
  Isaac.environ := env;
  Isaac.SimulationApp := fun _ _ _ h => let (r, h') := fresh h in (Normal r, h');
  Isaac.settings_set := fun _ _ => ok tt;
  Isaac.World := fun _ _ _ _ _ h => let (r, h') := fresh h in (Normal r, h');
  Isaac.add_task := fun _ _ => ok tt;
  Isaac.world_reset := fun _ => ok tt;
  Isaac.world_step := fun _ rendered h => (Normal tt, tick rendered h);
  Isaac.world_render := fun _ h => (Normal tt, tick true h);
  Isaac.set_extension_enabled_immediate := fun _ _ => ok tt;
  Isaac.gym_Env_render := fun _ h => (Raise NotImplementedError, h);
  Isaac.root_layer_clear := ok tt;
  Isaac.simulation_app_close := fun _ => ok tt;
  Isaac.set_seed := set_seed_model draw apply
|}.

(** A task with four environments whose observation is the tick count. *)
Definition cartpole : RLTask.t Host Buffer Space := {|
  RLTask.name := "Cartpole";
  RLTask.num_envs := 4;
  RLTask.observation_space := 4%nat;
  RLTask.action_space := 1%nat;
  RLTask.pre_physics_step := fun _ => ok tt;
  RLTask.get_observations := fun h => (Normal [ticks h; ticks h; ticks h; ticks h], h);
  RLTask.calculate_metrics := fun h => (Normal [1; 1; 1; 1], h);
  RLTask.is_done := fun h => (Normal [0; 0; 0; 0], h);
  RLTask.reset := ok tt
|}.

(** The same task with a pre-physics hook that rejects every action. *)
Definition faulty : RLTask.t Host Buffer Space := {|
  RLTask.name := "Faulty";
  RLTask.num_envs := 4;
  RLTask.observation_space := 4%nat;
  RLTask.action_space := 1%nat;
  RLTask.pre_physics_step := fun _ h => (Raise (HostError "bad actions"), h);
  RLTask.get_observations := fun h => (Normal [ticks h; ticks h; ticks h; ticks h], h);
  RLTask.calculate_metrics := fun h => (Normal [1; 1; 1; 1], h);
  RLTask.is_done := fun h => (Normal [0; 0; 0; 0], h);
  RLTask.reset := ok tt
|}.

(** A task whose [reset] and [get_observations] both fail. *)
Definition broken : RLTask.t Host Buffer Space := {|
  RLTask.name := "Broken";
  RLTask.num_envs := 2;
  RLTask.observation_space := 3%nat;
  RLTask.action_space := 1%nat;
  RLTask.pre_physics_step := fun _ => ok tt;
  RLTask.get_observations := fun h => (Raise (HostError "no sensors"), h);
  RLTask.calculate_metrics := fun h => (Normal [0; 0], h);
  RLTask.is_done := fun h => (Normal [0; 0], h);
  RLTask.reset := fun h => (Raise (HostError "no scene"), h)
|}.

(** The mock host with physics that fails on every tick, a launcher that
    fails, and a stage that cannot be cleared. *)
Definition stalled : Isaac.api Host Buffer Space := {|
  Isaac.environ := env;
  Isaac.SimulationApp := fun _ _ _ h => (Raise (HostError "no GPU"), h);
  Isaac.settings_set := fun _ _ => ok tt;
  Isaac.World := fun _ _ _ _ _ h => let (r, h') := fresh h in (Normal r, h');
  Isaac.add_task := fun _ _ => ok tt;
  Isaac.world_reset := fun _ => ok tt;
  Isaac.world_step := fun _ _ h => (Raise (HostError "physics stalled"), h);
  Isaac.world_render := fun _ h => (Normal tt, tick true h);
  Isaac.set_extension_enabled_immediate := fun _ _ => ok tt;
  Isaac.gym_Env_render := fun _ h => (Raise NotImplementedError, h);
  Isaac.root_layer_clear := fun h => (Raise (HostError "no stage"), h);
  Isaac.simulation_app_close := fun _ => ok tt;
  Isaac.set_seed := set_seed_model draw apply
|}.

(** The mock host on which no world can be constructed. *)
Definition no_world : Isaac.api Host Buffer Space := {|
  Isaac.environ := env;
  Isaac.SimulationApp := fun _ _ _ h => let (r, h') := fresh h in (Normal r, h');
  Isaac.settings_set := fun _ _ => ok tt;
  Isaac.World := fun _ _ _ _ _ h => (Raise (HostError "no stage"), h);
  Isaac.add_task := fun _ _ => ok tt;
  Isaac.world_reset := fun _ => ok tt;
  Isaac.world_step := fun _ rendered h => (Normal tt, tick rendered h);
  Isaac.world_render := fun _ h => (Normal tt, tick true h);
  Isaac.set_extension_enabled_immediate := fun _ _ => ok tt;
  Isaac.gym_Env_render := fun _ h => (Raise NotImplementedError, h);
  Isaac.root_layer_clear := ok tt;
  Isaac.simulation_app_close := fun _ => ok tt;
  Isaac.set_seed := set_seed_model draw apply
|}.

(** The mock host whose worlds accept no task. *)
Definition no_tasks : Isaac.api Host Buffer Space := {|
  Isaac.environ := env;
  Isaac.SimulationApp := fun _ _ _ h => let (r, h') := fresh h in (Normal r, h');
  Isaac.settings_set := fun _ _ => ok tt;
  Isaac.World := fun _ _ _ _ _ h => let (r, h') := fresh h in (Normal r, h');
  Isaac.add_task := fun _ _ h => (Raise (HostError "task name should be unique"), h);
  Isaac.world_reset := fun _ => ok tt;
  Isaac.world_step := fun _ rendered h => (Normal tt, tick rendered h);
  Isaac.world_render := fun _ h => (Normal tt, tick true h);
  Isaac.set_extension_enabled_immediate := fun _ _ => ok tt;
  Isaac.gym_Env_render := fun _ h => (Raise NotImplementedError, h);
  Isaac.root_layer_clear := ok tt;
  Isaac.simulation_app_close := fun _ => ok tt;
  Isaac.set_seed := set_seed_model draw apply
|}.

(** A process environment without [EXP_PATH]. *)
Definition bare : Machine unit Host Buffer :=
  {| self := tt;
     host := {| env := ∅; ticks := 0; frames := 0;
                applied_seed := 0; entropy := 12345; next_ref := 0 |};
     calls := [] |}.

Definition boot : Host :=
  {| env := {[ "EXP_PATH" := "/isaac/apps" ]}; ticks := 0; frames := 0;
     applied_seed := 0; entropy := 12345; next_ref := 0 |}.

Definition start : Machine unit Host Buffer :=
  {| self := tt; host := boot; calls := [] |}.

(** An adapter built with a display, before any [set_task]. *)
Definition unbound : Machine (VecEnvBase.t Host Buffer Space) Host Buffer :=
  {| self := {| VecEnvBase._simulation_app := 0%nat;
                VecEnvBase._render := true;
                VecEnvBase.sim_frame_count := 0;
                VecEnvBase._world := None;
                VecEnvBase._task := None;
                VecEnvBase._num_envs := None;
                VecEnvBase.observation_space := None;
                VecEnvBase.action_space := None |};
     host := boot; calls := [] |}.

Definition gpu_params : SimParams :=
  ParamsDict {[ "use_gpu_pipeline" := PyBool true; "enable_viewport" := PyBool false ]}.

(** A dictionary whose [use_gpu_pipeline] is an array of two elements. *)
Definition array_params : SimParams :=
  ParamsDict
    {[ "use_gpu_pipeline" :=
         PyObject (Raise (ValueError "The truth value of an array is ambiguous")) ]}.

(** A dictionary whose [enable_viewport] is such an array. *)
Definition array_viewport_params : SimParams :=
  ParamsDict
    {[ "enable_viewport" :=
         PyObject (Raise (ValueError "The truth value of an array is ambiguous")) ]}.

(** An adapter built with a display and bound to [task]. *)
Definition bound (task : RLTask.t Host Buffer Space)
  : Machine (VecEnvBase.t Host Buffer Space) Host Buffer :=
  {| self := {| VecEnvBase._simulation_app := 0%nat;
                VecEnvBase._render := true;
                VecEnvBase.sim_frame_count := 0;
                VecEnvBase._world := Some 1%nat;
                VecEnvBase._task := Some task;
                VecEnvBase._num_envs := Some (RLTask.num_envs task);
                VecEnvBase.observation_space := Some (RLTask.observation_space task);
                VecEnvBase.action_space := Some (RLTask.action_space task) |};
     host := boot; calls := [] |}.

End Mock.

(** ** Properties of the adapter *)

Section Properties.
Context {Host Buffer Space : Type}.
Variable sim : Isaac.api Host Buffer Space.

Abbreviation Task := (RLTask.t Host Buffer Space).
Abbreviation Env := (VecEnvBase.t Host Buffer Space).
Abbreviation State := (Machine Env Host Buffer).

(** Unfolds the monad so that a method becomes a cascade of matches on
    the results of its external calls. *)
Ltac unfold_monad :=
  unfold mbind, M_bind, mret, M_ret, raise, lift, getattr, getitem, extern,
    modify_self, get_self, put_self in *.

Ltac run := repeat (progress (unfold_monad; cbn)).

(** C1: when the adapter is bound to a task and a world and none of the five
    external calls raises, [step actions] passes [actions] to the task's
    [pre_physics_step], steps the world once with the adapter's render flag,
    adds one to [sim_frame_count], asks the task for observations, rewards
    and dones in that order, and returns them with an empty [info]; this
    holds for every [actions]. *)
Theorem step_returns_four_tuple (actions : Buffer) (m : State) (task : Task)
    (w : WorldRef) (h1 h2 h3 h4 h5 : Host) (observations rewards dones : Buffer)
    (Htask : VecEnvBase._task (self m) = Some task)
    (Hworld : VecEnvBase._world (self m) = Some w)
    (Hpre : RLTask.pre_physics_step task actions (host m) = (Normal tt, h1))
    (Htick : Isaac.world_step sim w (VecEnvBase._render (self m)) h1 = (Normal tt, h2))
    (Hobs : RLTask.get_observations task h2 = (Normal observations, h3))
    (Hrew : RLTask.calculate_metrics task h3 = (Normal rewards, h4))
    (Hdone : RLTask.is_done task h4 = (Normal dones, h5)) :
  VecEnvBase.step sim actions m =
    (Normal (observations, rewards, dones, ∅),
     {| self := VecEnvBase.set_sim_frame_count
                  (VecEnvBase.sim_frame_count (self m) + 1) (self m);
        host := h5;
        calls := calls m ++
          [CallPrePhysicsStep (RLTask.name task) actions;
           CallWorldStep w (VecEnvBase._render (self m));
           CallGetObservations (RLTask.name task);
           CallCalculateMetrics (RLTask.name task);
           CallIsDone (RLTask.name task)] |}).
Proof.
  unfold VecEnvBase.step. run.
  rewrite Htask; run. rewrite Hpre; run. rewrite Hworld; run.
  rewrite Htick; run. rewrite Htask; run. rewrite Hobs; run.
  rewrite Htask; run. rewrite Hrew; run.
  rewrite Htask; run. rewrite Hdone; run.
  rewrite <- !app_assoc. reflexivity.
Qed.

Lemma new_calls_app {S : Type} (m m' : Machine S Host Buffer) (l : list (Call Buffer)) :
  calls m' = calls m ++ l -> new_calls m m' = l.
Proof.
  intros E. unfold new_calls. rewrite E. apply drop_app_length.
Qed.

(** X16: a step whose world tick raises is not counted either: [step]
    raises the tick's exception after its two calls and assigns nothing. *)
Lemma step_aborted_by_tick (actions : Buffer) (m : State) (task : Task)
    (w : WorldRef) (e : Exn) (h1 h2 : Host)
    (Htask : VecEnvBase._task (self m) = Some task)
    (Hworld : VecEnvBase._world (self m) = Some w)
    (Hpre : RLTask.pre_physics_step task actions (host m) = (Normal tt, h1))
    (Htick : Isaac.world_step sim w (VecEnvBase._render (self m)) h1 = (Raise e, h2)) :
  VecEnvBase.step sim actions m =
    (Raise e,
     {| self := self m; host := h2;
        calls := calls m ++
          [CallPrePhysicsStep (RLTask.name task) actions;
           CallWorldStep w (VecEnvBase._render (self m))] |}).
Proof.
  unfold VecEnvBase.step. run.
  rewrite Htask; run. rewrite Hpre; run. rewrite Hworld; run.
  rewrite Htick; run. rewrite <- !app_assoc. reflexivity.
Qed.

(** C9: when the task's [pre_physics_step] raises, [step] stops there with
    the same exception: the world is not stepped, no attribute of the
    adapter changes, and [sim_frame_count] in particular keeps its value. *)
Theorem step_aborted_by_pre_physics (actions : Buffer) (m : State) (task : Task)
    (e : Exn) (h1 : Host)
    (Htask : VecEnvBase._task (self m) = Some task)
    (Hpre : RLTask.pre_physics_step task actions (host m) = (Raise e, h1)) :
  VecEnvBase.step sim actions m =
    (Raise e,
     {| self := self m; host := h1;
        calls := calls m ++ [CallPrePhysicsStep (RLTask.name task) actions] |})
  /\ VecEnvBase.sim_frame_count (self (snd (VecEnvBase.step sim actions m)))
     = VecEnvBase.sim_frame_count (self m)
  /\ count_calls is_world_step (new_calls m (snd (VecEnvBase.step sim actions m))) = 0%nat.
Proof.
  assert (E : VecEnvBase.step sim actions m =
    (Raise e,
     {| self := self m; host := h1;
        calls := calls m ++ [CallPrePhysicsStep (RLTask.name task) actions] |})).
  { unfold VecEnvBase.step. run. rewrite Htask; run. rewrite Hpre; run.
    reflexivity. }
  rewrite E. split; [reflexivity|]. split; [reflexivity|].
  cbn. erewrite new_calls_app by reflexivity. reflexivity.
Qed.

(** C2: when the adapter is bound and the three external calls succeed,
    [reset] calls the task's [reset] hook once, steps the world once with
    the adapter's render flag, and returns the observations the task gives
    afterwards and nothing else; the attributes of the adapter are as
    before. *)
Theorem reset_returns_observations (m : State) (task : Task) (w : WorldRef)
    (h1 h2 h3 : Host) (observations : Buffer)
    (Htask : VecEnvBase._task (self m) = Some task)
    (Hworld : VecEnvBase._world (self m) = Some w)
    (Hreset : RLTask.reset task (host m) = (Normal tt, h1))
    (Htick : Isaac.world_step sim w (VecEnvBase._render (self m)) h1 = (Normal tt, h2))
    (Hobs : RLTask.get_observations task h2 = (Normal observations, h3)) :
  VecEnvBase.reset sim m =
    (Normal observations,
     {| self := self m; host := h3;
        calls := calls m ++
          [CallTaskReset (RLTask.name task);
           CallWorldStep w (VecEnvBase._render (self m));
           CallGetObservations (RLTask.name task)] |})
  /\ count_calls is_task_reset (new_calls m (snd (VecEnvBase.reset sim m))) = 1%nat
  /\ count_calls is_world_step (new_calls m (snd (VecEnvBase.reset sim m))) = 1%nat.
Proof.
  assert (E : VecEnvBase.reset sim m =
    (Normal observations,
     {| self := self m; host := h3;
        calls := calls m ++
          [CallTaskReset (RLTask.name task);
           CallWorldStep w (VecEnvBase._render (self m));
           CallGetObservations (RLTask.name task)] |})).
  { unfold VecEnvBase.reset. run.
    rewrite Htask; run. rewrite Hreset; run. rewrite Hworld; run.
    rewrite Htick; run. rewrite Htask; run. rewrite Hobs; run.
    rewrite <- !app_assoc. reflexivity. }
  rewrite E. split; [reflexivity|].
  cbn. erewrite new_calls_app by reflexivity. split; reflexivity.
Qed.

(** X19: however the calls of [reset] end, a bound adapter calls the task's
    [reset] hook once and keeps its attributes. *)
Lemma reset_calls_hook_once (m : State) (task : Task)
    (Htask : VecEnvBase._task (self m) = Some task) :
  count_calls is_task_reset (new_calls m (snd (VecEnvBase.reset sim m))) = 1%nat
  /\ self (snd (VecEnvBase.reset sim m)) = self m.
Proof.
  unfold VecEnvBase.reset. run. rewrite Htask; run.
  repeat (case_match; run; simplify_eq);
    (split; [|reflexivity]);
    (erewrite new_calls_app by (cbn; rewrite <- ?app_assoc; reflexivity));
    reflexivity.
Qed.

(** C10: [render] changes no attribute of the adapter, whatever the mode
    and however the call ends; [sim_frame_count] in particular is the same
    before and after. *)
Theorem render_keeps_attributes (mode : string) (m : State) :
  self (snd (VecEnvBase.render sim mode m)) = self m
  /\ VecEnvBase.sim_frame_count (self (snd (VecEnvBase.render sim mode m)))
     = VecEnvBase.sim_frame_count (self m).
Proof.
  assert (E : self (snd (VecEnvBase.render sim mode m)) = self m).
  { unfold VecEnvBase.render. run.
    repeat (case_match; run; simplify_eq); reflexivity. }
  rewrite E. split; reflexivity.
Qed.

(** C6: on a bound adapter [render mode] steps the world's
    renderer, by one call to the world's [render], exactly when [mode] is
    ["human"], and the call's outcome is its own.  For any other mode the
    world's [render] is not called: the one call is [gym.Env.render] with
    that mode, and [render] ends as that call ends, so it raises when the
    base class raises.  In both cases the adapter's attributes stay as
    they were. *)
Theorem render_human_only (mode : string) (m : State) (w : WorldRef)
    (Hworld : VecEnvBase._world (self m) = Some w) :
  (mode = "human" ->
     VecEnvBase.render sim mode m =
       (fst (Isaac.world_render sim w (host m)),
        {| self := self m; host := snd (Isaac.world_render sim w (host m));
           calls := calls m ++ [CallWorldRender w] |}))
  /\ (mode <> "human" ->
     VecEnvBase.render sim mode m =
       (fst (Isaac.gym_Env_render sim mode (host m)),
        {| self := self m; host := snd (Isaac.gym_Env_render sim mode (host m));
           calls := calls m ++ [CallGymEnvRender mode] |}))
  /\ (count_calls is_world_render (new_calls m (snd (VecEnvBase.render sim mode m)))
      = 1%nat <-> mode = "human")
  /\ (count_calls is_world_render (new_calls m (snd (VecEnvBase.render sim mode m)))
      = 0%nat <-> mode <> "human").
Proof.
  unfold VecEnvBase.render.
  destruct (String.eqb_spec mode "human") as [E|E].
  - run. rewrite Hworld; run.
    destruct (Isaac.world_render sim w (host m)) as [r h] eqn:R; cbn.
    erewrite new_calls_app by reflexivity. cbn.
    repeat split; try done.
  - run.
    destruct (Isaac.gym_Env_render sim mode (host m)) as [r h] eqn:R; cbn.
    erewrite new_calls_app by reflexivity. cbn.
    repeat split; try done.
Qed.

(** X17: with a display, construction never reads the process environment,
    however the launch ends. *)
Lemma init_with_display_skips_environ (sim_device : Z) (m0 : Machine unit Host Buffer) :
  count_calls is_environ_get
    (new_calls m0 (snd (VecEnvBase.__init__ sim false sim_device m0))) = 0%nat.
Proof.
  unfold VecEnvBase.__init__. run.
  repeat (case_match; run; simplify_eq);
    (erewrite new_calls_app by (cbn; rewrite <- ?app_assoc; reflexivity));
    reflexivity.
Qed.

(** C7: when the launch succeeds, [__init__ headless sim_device] starts the
    simulation application with these two arguments, sets the instancing
    flag, and yields an object whose [_render] is [negb headless] and whose
    [sim_frame_count] is 0; it reads [EXP_PATH] from the process environment
    once when [headless] is true and not at all when it is false. *)
Theorem init_records_render_flag (headless : bool) (sim_device : Z)
    (m0 : Machine unit Host Buffer) (app : AppRef) (h1 h2 : Host)
    (Henv : headless = true -> is_Some (Isaac.environ sim (host m0) !! "EXP_PATH"))
    (Happ : Isaac.SimulationApp sim headless sim_device
              (if headless
               then (default "" (Isaac.environ sim (host m0) !! "EXP_PATH")
                     ++ VecEnvBase.headless_kit)%string
               else "")
              (host m0) = (Normal app, h1))
    (Hset : Isaac.settings_set sim VecEnvBase.instancing_setting true h1 = (Normal tt, h2)) :
  VecEnvBase.__init__ sim headless sim_device m0 =
    (Normal {| VecEnvBase._simulation_app := app;
               VecEnvBase._render := negb headless;
               VecEnvBase.sim_frame_count := 0;
               VecEnvBase._world := None; VecEnvBase._task := None;
               VecEnvBase._num_envs := None;
               VecEnvBase.observation_space := None;
               VecEnvBase.action_space := None |},
     {| self := tt; host := h2;
        calls := calls m0 ++
          (if headless then [CallEnvironGet "EXP_PATH"] else []) ++
          [CallSimulationApp headless sim_device
             (if headless
              then (default "" (Isaac.environ sim (host m0) !! "EXP_PATH")
                    ++ VecEnvBase.headless_kit)%string
              else "");
           CallSettingsSet VecEnvBase.instancing_setting true] |})
  /\ count_calls is_environ_get
       (new_calls m0 (snd (VecEnvBase.__init__ sim headless sim_device m0)))
     = (if headless then 1%nat else 0%nat).
Proof.
  assert (E : VecEnvBase.__init__ sim headless sim_device m0 =
    (Normal {| VecEnvBase._simulation_app := app;
               VecEnvBase._render := negb headless;
               VecEnvBase.sim_frame_count := 0;
               VecEnvBase._world := None; VecEnvBase._task := None;
               VecEnvBase._num_envs := None;
               VecEnvBase.observation_space := None;
               VecEnvBase.action_space := None |},
     {| self := tt; host := h2;
        calls := calls m0 ++
          (if headless then [CallEnvironGet "EXP_PATH"] else []) ++
          [CallSimulationApp headless sim_device
             (if headless
              then (default "" (Isaac.environ sim (host m0) !! "EXP_PATH")
                    ++ VecEnvBase.headless_kit)%string
              else "");
           CallSettingsSet VecEnvBase.instancing_setting true] |})).
  { unfold VecEnvBase.__init__. destruct headless.
    - destruct Henv as [p Hp]; [reflexivity|]. rewrite Hp in *. cbn in Happ.
      run. rewrite Hp; run. rewrite Happ; run. rewrite Hset; run.
      destruct m0 as [[] ? ?]; cbn. rewrite <- !app_assoc. reflexivity.
    - run. rewrite Happ; run. rewrite Hset; run.
      destruct m0 as [[] ? ?]; cbn. rewrite <- !app_assoc. reflexivity. }
  rewrite E. split; [reflexivity|].
  cbn. erewrite new_calls_app by reflexivity. destruct headless; reflexivity.
Qed.

(** What [set_task] has assigned by the time it returns. *)
Lemma set_task_assignments (task : Task) (backend : string)
    (sim_params : SimParams) (init_sim : bool) (m m' : State) :
  VecEnvBase.set_task sim task backend sim_params init_sim m = (Normal tt, m') ->
  exists w : WorldRef,
    self m' =
      VecEnvBase.set_action_space (RLTask.action_space task)
        (VecEnvBase.set_observation_space (RLTask.observation_space task)
          (VecEnvBase.set__num_envs (RLTask.num_envs task)
            (VecEnvBase.set__task task (VecEnvBase.set__world w (self m))))).
Proof.
  unfold VecEnvBase.set_task, VecEnvBase.select_device, VecEnvBase.disable_viewport,
    VecEnvBase.has_param, VecEnvBase.param.
  run.
  repeat (case_match; run; try discriminate);
    intros Hret; simplify_eq; cbn; eexists; reflexivity.
Qed.

(** C3: once [set_task task ...] has returned, the [num_envs] property is
    the task's [num_envs], and [observation_space] and [action_space] are
    the task's, whatever [backend], [sim_params] and [init_sim] were. *)
Theorem set_task_copies_declarations (task : Task) (backend : string)
    (sim_params : SimParams) (init_sim : bool) (m m' : State)
    (Hret : VecEnvBase.set_task sim task backend sim_params init_sim m = (Normal tt, m')) :
  VecEnvBase.num_envs m' = (Normal (RLTask.num_envs task), m')
  /\ VecEnvBase.observation_space (self m') = Some (RLTask.observation_space task)
  /\ VecEnvBase.action_space (self m') = Some (RLTask.action_space task)
  /\ VecEnvBase._task (self m') = Some task.
Proof.
  destruct (set_task_assignments _ _ _ _ _ _ Hret) as [w E].
  unfold VecEnvBase.num_envs, getattr. rewrite E. cbn.
  repeat split; reflexivity.
Qed.

(** What a reading comes to on a dictionary: the entry's truth value, or
    the default when the key is missing (an empty dictionary included). *)
Lemma reads_flag_dict (d : gmap string PyVal) (key : string) (default b : bool) :
  reads_flag (ParamsDict d) key default b <->
  (exists v, d !! key = Some v /\ truthy v = Normal b)
  \/ (b = default /\ d !! key = None).
Proof.
  assert (Ht : dict_truthy d = false -> d !! key = None).
  { unfold dict_truthy. intros E. apply negb_false_iff, Nat.eqb_eq in E.
    apply map_size_empty_inv in E. subst d. apply lookup_empty. }
  assert (Hc : dict_contains key d = false -> d !! key = None).
  { unfold dict_contains. intros E. apply bool_decide_eq_false in E.
    destruct (d !! key) eqn:L; [|reflexivity]. exfalso. apply E. eauto. }
  assert (Hs : forall v, d !! key = Some v ->
                         dict_truthy d = true /\ dict_contains key d = true).
  { unfold dict_truthy, dict_contains. intros v L. split.
    - apply negb_true_iff, Nat.eqb_neq. eapply map_size_ne_0_lookup_2; eauto.
    - apply bool_decide_eq_true. eauto. }
  unfold reads_flag, key_is, key_absent. cbn. split.
  - intros [(_ & _ & v & G & T) | (-> & A)].
    + destruct (d !! key) as [v'|]; [|discriminate].
      injection G as ->. left. eauto.
    + right. split; [reflexivity|]. destruct A as [E | [_ E]].
      * injection E as E. auto.
      * injection E as E. auto.
  - intros [(v & L & T) | (-> & L)].
    + left. destruct (Hs v L) as [-> ->]. rewrite L. eauto.
    + right. split; [reflexivity|].
      destruct (dict_truthy d) eqn:T; [right | left; reflexivity].
      split; [reflexivity|].
      destruct (dict_contains key d) eqn:C; [|reflexivity].
      unfold dict_contains in C. apply bool_decide_eq_true in C as [v C].
      congruence.
Qed.

(** With [None] every flag has its default. *)
Lemma reads_flag_none (key : string) (default b : bool) :
  reads_flag ParamsNone key default b <-> b = default.
Proof.
  unfold reads_flag, key_is, key_absent. cbn. split.
  - intros [([=] & _) | (-> & _)]. reflexivity.
  - intros ->. right. split; [reflexivity | left; reflexivity].
Qed.

(** A flag has one reading at most. *)
Lemma reads_flag_unique (sim_params : SimParams) (key : string) (default b b' : bool) :
  reads_flag sim_params key default b -> reads_flag sim_params key default b' -> b = b'.
Proof.
  unfold reads_flag, key_is, key_absent.
  intros [(T & C & v & G & B) | (-> & [T | (T & C)])]
         [(T' & C' & v' & G' & B') | (-> & [T' | (T' & C')])];
    congruence.
Qed.

Lemma bind_normal {S A B : Type} (c : M S Host Buffer A) (k : A -> M S Host Buffer B)
    (m m' : Machine S Host Buffer) (a : A) :
  c m = (Normal a, m') -> (c ≫= k) m = k a m'.
Proof.
  intros E. unfold mbind, M_bind. rewrite E. reflexivity.
Qed.

Lemma extern_normal {S A : Type} (c : Call Buffer) (f : Host -> Outcome A * Host)
    (m : Machine S Host Buffer) (a : A) (h : Host) :
  f (host m) = (Normal a, h) ->
  extern c f m = (Normal a, {| self := self m; host := h; calls := calls m ++ [c] |}).
Proof.
  intros E. unfold extern. rewrite E. reflexivity.
Qed.

(** The device block: with a readable flag it returns the device for it and
    makes no call. *)
Lemma select_device_reads (sim_params : SimParams) (m : State) (use_gpu : bool) :
  reads_flag sim_params "use_gpu_pipeline" false use_gpu ->
  VecEnvBase.select_device sim_params m
  = (Normal (if use_gpu then "cuda" else "cpu"), m).
Proof.
  unfold reads_flag, key_is, key_absent, VecEnvBase.select_device,
    VecEnvBase.has_param, VecEnvBase.param.
  intros [(T & C & v & G & B) | (-> & [T | (T & C)])]; run;
    rewrite T; run; rewrite ?C; run; rewrite ?G; run; rewrite ?B; run;
    try destruct use_gpu; reflexivity.
Qed.

(** The device block, when it returns, has read the flag. *)
Lemma select_device_inv (sim_params : SimParams) (m m' : State) (device : string) :
  VecEnvBase.select_device sim_params m = (Normal device, m') ->
  m' = m
  /\ exists use_gpu : bool,
       reads_flag sim_params "use_gpu_pipeline" false use_gpu
       /\ device = (if use_gpu then "cuda" else "cpu").
Proof.
  unfold reads_flag, key_is, key_absent, VecEnvBase.select_device,
    VecEnvBase.has_param, VecEnvBase.param. run.
  destruct (params_truth sim_params) as [[|]|] eqn:T; run; try discriminate.
  - destruct (params_contains sim_params "use_gpu_pipeline") as [[|]|] eqn:C;
      run; try discriminate.
    + destruct (params_getitem sim_params "use_gpu_pipeline") as [v|] eqn:G;
        run; try discriminate.
      destruct (truthy v) as [[|]|] eqn:B; run; try discriminate;
        intros [= <- <-]; (split; [reflexivity|]).
      * exists true. split; [left; eauto 8 | reflexivity].
      * exists false. split; [left; eauto 8 | reflexivity].
    + intros [= <- <-]. split; [reflexivity|]. exists false.
      split; [right; intuition | reflexivity].
  - intros [= <- <-]. split; [reflexivity|]. exists false.
    split; [right; intuition | reflexivity].
Qed.




(** X18: whatever the seeding utility does, also when it raises, [seed value]
    is one call to it with [value] unchanged (-1 included), its outcome is
    the utility's, and no attribute of the adapter changes. *)
Lemma seed_is_pass_through (value : Z) (m : State) :
  new_calls m (snd (VecEnvBase.seed sim value m)) = [CallSetSeed value]
  /\ fst (VecEnvBase.seed sim value m) = fst (Isaac.set_seed sim value (host m))
  /\ host (snd (VecEnvBase.seed sim value m)) = snd (Isaac.set_seed sim value (host m))
  /\ self (snd (VecEnvBase.seed sim value m)) = self m.
Proof.
  unfold VecEnvBase.seed, extern.
  destruct (Isaac.set_seed sim value (host m)) as [r h]. cbn.
  erewrite new_calls_app by reflexivity. repeat split; reflexivity.
Qed.

(** C8: [seed value] makes one call, to the seeding utility with [value] as
    it is, and returns what the utility returns.  With the utility as the
    spec describes it, the result is [value] for every [value] other than
    -1 (so [seed 5] is 5, and no range is checked), and for -1 it is the
    random seed the utility drew. *)
Theorem seed_forwards_value (draw : Host -> Z * Host) (apply : Z -> Host -> Host)
    (value : Z) (m : State)
    (Hutil : Isaac.set_seed sim = set_seed_model draw apply) :
  new_calls m (snd (VecEnvBase.seed sim value m)) = [CallSetSeed value]
  /\ fst (VecEnvBase.seed sim value m) = fst (Isaac.set_seed sim value (host m))
  /\ fst (VecEnvBase.seed sim value m)
     = Normal (if Z.eqb value (-1) then fst (draw (host m)) else value)
  /\ fst (VecEnvBase.seed sim 5 m) = Normal 5
  /\ host (snd (VecEnvBase.seed sim value m))
     = (if Z.eqb value (-1)
        then apply (fst (draw (host m))) (snd (draw (host m)))
        else apply value (host m))
  /\ self (snd (VecEnvBase.seed sim value m)) = self m.
Proof.
  unfold VecEnvBase.seed, extern. rewrite Hutil. unfold set_seed_model.
  cbn. split; [|split; [|split; [|split; [|split]]]].
  - destruct (value =? -1); [destruct (draw (host m))|]; cbn;
      (erewrite new_calls_app by reflexivity); reflexivity.
  - destruct (value =? -1); [destruct (draw (host m))|]; reflexivity.
  - destruct (value =? -1); [destruct (draw (host m))|]; reflexivity.
  - reflexivity.
  - destruct (value =? -1); [destruct (draw (host m))|]; reflexivity.
  - destruct (value =? -1); [destruct (draw (host m))|]; reflexivity.
Qed.

(** A step moves the counter by one exactly when its tick gets done. *)
Lemma step_frame_count (actions : Buffer) (m : State) :
  VecEnvBase.sim_frame_count (self (snd (VecEnvBase.step sim actions m)))
  = VecEnvBase.sim_frame_count (self m)
    + (if step_ticks sim actions m then 1 else 0).
Proof.
  unfold VecEnvBase.step, step_ticks. run.
  repeat (case_match; run; simplify_eq); cbn in *; simplify_eq; cbn;
    first [lia | congruence].
Qed.

(** One call of any method moves [sim_frame_count] by nothing, or by one
    when the method is [step] and its tick gets done. *)
Lemma invoke_frame_count (i : Invocation) (m : State) :
  VecEnvBase.sim_frame_count (self (snd (invoke sim i m)))
  = VecEnvBase.sim_frame_count (self m)
    + (match i with
       | InvStep actions => if step_ticks sim actions m then 1 else 0
       | _ => 0
       end).
Proof.
  destruct i;
    try (unfold invoke, VecEnvBase.set_task, VecEnvBase.select_device,
           VecEnvBase.disable_viewport, VecEnvBase.has_param, VecEnvBase.param,
           VecEnvBase.reset, VecEnvBase.render, VecEnvBase.seed,
           VecEnvBase.num_envs, VecEnvBase.close; run;
         repeat (case_match; run; simplify_eq); cbn; lia).
  pose proof (step_frame_count actions m) as H.
  unfold invoke, mbind, M_bind, mret, M_ret.
  destruct (VecEnvBase.step sim actions m) as [[r|e] m1]; cbn in *; exact H.
Qed.

Lemma count_steps_cons (i : Invocation) (l : list (@Invocation Host Buffer Space)) :
  count_steps (i :: l) = (if is_step i then 1 else 0) + count_steps l.
Proof.
  unfold count_steps. rewrite filter_cons.
  destruct (is_step i); cbn [length].
  - rewrite decide_True by reflexivity. cbn [length]. lia.
  - rewrite decide_False by discriminate. lia.
Qed.

(** Over a session the counter grows by the number of ticks its steps got
    done. *)
Lemma session_frame_count (l : list Invocation) (m : State) :
  VecEnvBase.sim_frame_count (self (session sim l m))
  = VecEnvBase.sim_frame_count (self m) + session_ticks sim l m.
Proof.
  revert m. induction l as [|i l IH]; intros m.
  - cbn. lia.
  - cbn [session session_ticks]. rewrite IH, invoke_frame_count. lia.
Qed.

Lemma session_ticks_bounds (l : list Invocation) (m : State) :
  0 <= session_ticks sim l m <= count_steps l.
Proof.
  revert m. induction l as [|i l IH]; intros m.
  - unfold count_steps. cbn. lia.
  - cbn [session_ticks]. rewrite count_steps_cons.
    pose proof (IH (snd (invoke sim i m))) as Hl.
    destruct i; cbn [is_step]; try lia.
    destruct (step_ticks sim actions m); lia.
Qed.

(** A launch that succeeds yields a counter at 0. *)
Lemma init_frame_count (headless : bool) (sim_device : Z)
    (m0 : Machine unit Host Buffer) (app : AppRef) (h1 h2 : Host) :
  (headless = true -> is_Some (Isaac.environ sim (host m0) !! "EXP_PATH")) ->
  Isaac.SimulationApp sim headless sim_device
    (if headless
     then (default "" (Isaac.environ sim (host m0) !! "EXP_PATH")
           ++ VecEnvBase.headless_kit)%string
     else "")
    (host m0) = (Normal app, h1) ->
  Isaac.settings_set sim VecEnvBase.instancing_setting true h1 = (Normal tt, h2) ->
  exists env m1,
    VecEnvBase.__init__ sim headless sim_device m0 = (Normal env, m1)
    /\ VecEnvBase.sim_frame_count env = 0.
Proof.
  intros Henv Happ Hset. unfold VecEnvBase.__init__. destruct headless.
  - destruct Henv as [p Hp]; [reflexivity|]. rewrite Hp in *. cbn in Happ.
    run. rewrite Hp; run. rewrite Happ; run. rewrite Hset; run.
    eexists _, _. split; reflexivity.
  - run. rewrite Happ; run. rewrite Hset; run.
    eexists _, _. split; reflexivity.
Qed.

(** C4: [sim_frame_count] is 0 in an adapter whose launch
    succeeded.  A [step] call raises it by exactly 1 when its pre-physics
    hook and its world tick both return, also if a later query raises, and
    leaves it as it is when the call is aborted before that.  [reset] never
    changes it, and neither does any other method: over any sequence of
    calls it has grown by the number of ticks the [step] calls got done,
    which is at least 0 and at most the number of [step] calls.  So it
    never goes down, and only construction makes it 0. *)
Theorem frame_counter_counts_ticks :
  (forall (headless : bool) (sim_device : Z) (m0 : Machine unit Host Buffer)
          (app : AppRef) (h1 h2 : Host),
     (headless = true -> is_Some (Isaac.environ sim (host m0) !! "EXP_PATH")) ->
     Isaac.SimulationApp sim headless sim_device
       (if headless
        then (default "" (Isaac.environ sim (host m0) !! "EXP_PATH")
              ++ VecEnvBase.headless_kit)%string
        else "")
       (host m0) = (Normal app, h1) ->
     Isaac.settings_set sim VecEnvBase.instancing_setting true h1 = (Normal tt, h2) ->
     exists env m1,
       VecEnvBase.__init__ sim headless sim_device m0 = (Normal env, m1)
       /\ VecEnvBase.sim_frame_count env = 0)
  /\ (forall (actions : Buffer) (m : State),
       VecEnvBase.sim_frame_count (self (snd (VecEnvBase.step sim actions m)))
       = VecEnvBase.sim_frame_count (self m)
         + (if step_ticks sim actions m then 1 else 0))
  /\ (forall m : State,
       VecEnvBase.sim_frame_count (self (snd (VecEnvBase.reset sim m)))
       = VecEnvBase.sim_frame_count (self m))
  /\ (forall (l : list Invocation) (m : State),
       VecEnvBase.sim_frame_count (self (session sim l m))
       = VecEnvBase.sim_frame_count (self m) + session_ticks sim l m
       /\ 0 <= session_ticks sim l m <= count_steps l).
Proof.
  split; [|split; [|split]].
  - apply init_frame_count.
  - apply step_frame_count.
  - intros m. pose proof (invoke_frame_count InvReset m) as H.
    cbn in H. unfold mbind, M_bind in H.
    destruct (VecEnvBase.reset sim m) as [[o|e] m']; cbn in *; lia.
  - intros l m. split; [apply session_frame_count | apply session_ticks_bounds].
Qed.

(** ** Further properties: shutdown, failed launches, use before binding *)

(** X1: when the stage can be cleared and the application closes, [close]
    clears the root layer first and then closes the application that
    [__init__] recorded, and returns; it makes no other call and assigns no
    attribute, so the task and the world stay bound on the object. *)
Theorem close_clears_then_closes (m : State) (h1 h2 : Host)
    (Hclear : Isaac.root_layer_clear sim (host m) = (Normal tt, h1))
    (Hclose : Isaac.simulation_app_close sim (VecEnvBase._simulation_app (self m)) h1
              = (Normal tt, h2)) :
  VecEnvBase.close sim m =
    (Normal tt,
     {| self := self m; host := h2;
        calls := calls m ++
          [CallRootLayerClear; CallAppClose (VecEnvBase._simulation_app (self m))] |}).
Proof.
  unfold VecEnvBase.close. run. rewrite Hclear; run. rewrite Hclose; run.
  rewrite <- !app_assoc. reflexivity.
Qed.

(** X2: when clearing the root layer raises, [close] raises the same
    exception and never reaches the application: it is left running. *)
Theorem close_aborted_by_clear (m : State) (e : Exn) (h1 : Host)
    (Hclear : Isaac.root_layer_clear sim (host m) = (Raise e, h1)) :
  VecEnvBase.close sim m =
    (Raise e,
     {| self := self m; host := h1; calls := calls m ++ [CallRootLayerClear] |}).
Proof.
  unfold VecEnvBase.close. run. rewrite Hclear; run. reflexivity.
Qed.

(** X3: a headless construction in a process environment without
    [EXP_PATH] raises [KeyError] on that key before anything is launched:
    the lookup is its only call. *)
Theorem init_headless_without_exp_path (sim_device : Z) (m0 : Machine unit Host Buffer)
    (Henv : Isaac.environ sim (host m0) !! "EXP_PATH" = None) :
  VecEnvBase.__init__ sim true sim_device m0 =
    (Raise (KeyError "EXP_PATH"),
     {| self := self m0; host := host m0;
        calls := calls m0 ++ [CallEnvironGet "EXP_PATH"] |}).
Proof.
  unfold VecEnvBase.__init__. run. rewrite Henv; run. reflexivity.
Qed.

(** X4: when the simulation application fails to launch, [__init__] raises
    the launcher's exception and stops: the instancing setting is not
    touched and no object results. *)
Theorem init_launch_failure (headless : bool) (sim_device : Z)
    (m0 : Machine unit Host Buffer) (e : Exn) (h1 : Host)
    (Henv : headless = true -> is_Some (Isaac.environ sim (host m0) !! "EXP_PATH"))
    (Happ : Isaac.SimulationApp sim headless sim_device
              (if headless
               then (default "" (Isaac.environ sim (host m0) !! "EXP_PATH")
                     ++ VecEnvBase.headless_kit)%string
               else "")
              (host m0) = (Raise e, h1)) :
  VecEnvBase.__init__ sim headless sim_device m0 =
    (Raise e,
     {| self := self m0; host := h1;
        calls := calls m0 ++
          (if headless then [CallEnvironGet "EXP_PATH"] else []) ++
          [CallSimulationApp headless sim_device
             (if headless
              then (default "" (Isaac.environ sim (host m0) !! "EXP_PATH")
                    ++ VecEnvBase.headless_kit)%string
              else "")] |}).
Proof.
  unfold VecEnvBase.__init__. destruct headless.
  - destruct Henv as [p Hp]; [reflexivity|]. rewrite Hp in *. cbn in Happ.
    run. rewrite Hp; run. rewrite Happ; run.
    rewrite <- !app_assoc. reflexivity.
  - run. rewrite Happ; run. reflexivity.
Qed.

(** X5: before [set_task] the attributes [_task], [_world] and [_num_envs]
    do not exist, and each method that needs one raises [AttributeError]
    for it at once: [step] and [reset] for [_task], [render] in human mode
    for [_world], the [num_envs] property for [_num_envs].  None of them
    makes a call or changes anything. *)
Theorem methods_before_set_task (actions : Buffer) (m : State)
    (Htask : VecEnvBase._task (self m) = None)
    (Hworld : VecEnvBase._world (self m) = None)
    (Hnum : VecEnvBase._num_envs (self m) = None) :
  VecEnvBase.step sim actions m = (Raise (AttributeError "_task"), m)
  /\ VecEnvBase.reset sim m = (Raise (AttributeError "_task"), m)
  /\ VecEnvBase.render sim "human" m = (Raise (AttributeError "_world"), m)
  /\ VecEnvBase.num_envs m = (Raise (AttributeError "_num_envs"), m).
Proof.
  unfold VecEnvBase.step, VecEnvBase.reset, VecEnvBase.render, VecEnvBase.num_envs.
  run. rewrite Htask, Hworld, Hnum. repeat split; reflexivity.
Qed.

(** X6: a frame is counted as soon as the world has ticked.  When the
    pre-physics hook and the tick succeed and the task then fails to give
    observations, [step] raises that exception with [sim_frame_count]
    already one higher; rewards and dones are not asked for. *)
Theorem step_aborted_by_observations (actions : Buffer) (m : State) (task : Task)
    (w : WorldRef) (e : Exn) (h1 h2 h3 : Host)
    (Htask : VecEnvBase._task (self m) = Some task)
    (Hworld : VecEnvBase._world (self m) = Some w)
    (Hpre : RLTask.pre_physics_step task actions (host m) = (Normal tt, h1))
    (Htick : Isaac.world_step sim w (VecEnvBase._render (self m)) h1 = (Normal tt, h2))
    (Hobs : RLTask.get_observations task h2 = (Raise e, h3)) :
  VecEnvBase.step sim actions m =
    (Raise e,
     {| self := VecEnvBase.set_sim_frame_count
                  (VecEnvBase.sim_frame_count (self m) + 1) (self m);
        host := h3;
        calls := calls m ++
          [CallPrePhysicsStep (RLTask.name task) actions;
           CallWorldStep w (VecEnvBase._render (self m));
           CallGetObservations (RLTask.name task)] |}).
Proof.
  unfold VecEnvBase.step. run.
  rewrite Htask; run. rewrite Hpre; run. rewrite Hworld; run.
  rewrite Htick; run. rewrite Htask; run. rewrite Hobs; run.
  rewrite <- !app_assoc. reflexivity.
Qed.

(** X7: when the task's [reset] hook raises, [reset] raises the same
    exception at once: the world is not stepped and no observations are
    asked for. *)
Theorem reset_aborted_by_hook (m : State) (task : Task) (e : Exn) (h1 : Host)
    (Htask : VecEnvBase._task (self m) = Some task)
    (Hreset : RLTask.reset task (host m) = (Raise e, h1)) :
  VecEnvBase.reset sim m =
    (Raise e,
     {| self := self m; host := h1;
        calls := calls m ++ [CallTaskReset (RLTask.name task)] |}).
Proof.
  unfold VecEnvBase.reset. run. rewrite Htask; run. rewrite Hreset; run.
  reflexivity.
Qed.

(** ** Further properties: what [set_task] does besides the copies *)

Lemma bind_inv {S A B : Type} (c : M S Host Buffer A) (k : A -> M S Host Buffer B)
    (m m' : Machine S Host Buffer) (b : B) :
  (c ≫= k) m = (Normal b, m') ->
  exists a m1, c m = (Normal a, m1) /\ k a m1 = (Normal b, m').
Proof.
  unfold mbind, M_bind. destruct (c m) as [[a|e] m1]; [eauto | discriminate].
Qed.

Lemma extern_inv {S A : Type} (c : Call Buffer) (f : Host -> Outcome A * Host)
    (m m1 : Machine S Host Buffer) (a : A) :
  extern c f m = (Normal a, m1) ->
  exists h, f (host m) = (Normal a, h)
            /\ m1 = {| self := self m; host := h; calls := calls m ++ [c] |}.
Proof.
  unfold extern. destruct (f (host m)) as [r h]. intros [= -> <-]. eauto.
Qed.

Lemma getattr_inv {S A : Type} (attr : string) (f : S -> option A)
    (m m1 : Machine S Host Buffer) (a : A) :
  getattr attr f m = (Normal a, m1) -> f (self m) = Some a /\ m1 = m.
Proof.
  unfold getattr. destruct (f (self m)); [intros [= -> <-]; auto | discriminate].
Qed.

Lemma modify_self_inv {S : Type} (f : S -> S) (m m1 : Machine S Host Buffer) (u : unit) :
  modify_self f m = (Normal u, m1) ->
  m1 = {| self := f (self m); host := host m; calls := calls m |}.
Proof.
  unfold modify_self, get_self, put_self, mbind, M_bind. intros [= _ <-]. reflexivity.
Qed.

(** The viewport block, when it returns, has read the flag and has called
    the extension manager exactly when the flag is false. *)
Lemma disable_viewport_inv (sim_params : SimParams) (m m' : State) (u : unit) :
  VecEnvBase.disable_viewport sim sim_params m = (Normal u, m') ->
  exists (enabled : bool) (h : Host),
    reads_flag sim_params "enable_viewport" true enabled
    /\ (if enabled then h = host m
        else Isaac.set_extension_enabled_immediate sim
               VecEnvBase.viewport_extension false (host m) = (Normal tt, h))
    /\ m' = {| self := self m; host := h;
               calls := calls m ++
                 (if enabled then []
                  else [CallSetExtensionEnabled VecEnvBase.viewport_extension false]) |}.
Proof.
  assert (Eta : m = {| self := self m; host := host m; calls := calls m ++ [] |}).
  { destruct m. cbn. rewrite app_nil_r. reflexivity. }
  unfold reads_flag, key_is, key_absent, VecEnvBase.disable_viewport,
    VecEnvBase.has_param, VecEnvBase.param. run.
  destruct (params_truth sim_params) as [[|]|] eqn:T; run; try discriminate.
  - destruct (params_contains sim_params "enable_viewport") as [[|]|] eqn:C;
      run; try discriminate.
    + destruct (params_getitem sim_params "enable_viewport") as [v|] eqn:G;
        run; try discriminate.
      destruct (truthy v) as [[|]|] eqn:B; run; try discriminate.
      * intros ?; simplify_eq. eexists true, _.
        split; [left; eauto 8 | split; [reflexivity | exact Eta]].
      * destruct (Isaac.set_extension_enabled_immediate sim
                    VecEnvBase.viewport_extension false (host m))
          as [[[]|e] h] eqn:X; [|discriminate].
        intros ?; simplify_eq. exists false, h.
        split; [left; eauto 8 | split; reflexivity].
    + intros ?; simplify_eq. eexists true, _.
      split; [right; intuition | split; [reflexivity | exact Eta]].
  - intros ?; simplify_eq. eexists true, _.
    split; [right; intuition | split; [reflexivity | exact Eta]].
Qed.

(** Everything a [set_task] that returned has read, called and assigned:
    the converse of [set_task_runs]. *)
Lemma set_task_trace (task : Task) (backend : string)
    (sim_params : SimParams) (init_sim : bool) (m m' : State) :
  VecEnvBase.set_task sim task backend sim_params init_sim m = (Normal tt, m') ->
  exists (use_gpu enabled : bool) (w : WorldRef) (h1 h2 h3 h4 : Host),
    reads_flag sim_params "use_gpu_pipeline" false use_gpu
    /\ reads_flag sim_params "enable_viewport" true enabled
    /\ Isaac.World sim 1 (1 / 60) backend sim_params
         (if use_gpu then "cuda" else "cpu") (host m) = (Normal w, h1)
    /\ Isaac.add_task sim w task h1 = (Normal tt, h2)
    /\ (if enabled then h3 = h2
        else Isaac.set_extension_enabled_immediate sim
               VecEnvBase.viewport_extension false h2 = (Normal tt, h3))
    /\ (if init_sim then Isaac.world_reset sim w h3 = (Normal tt, h4) else h4 = h3)
    /\ m' =
        {| self :=
             VecEnvBase.set_action_space (RLTask.action_space task)
               (VecEnvBase.set_observation_space (RLTask.observation_space task)
                 (VecEnvBase.set__num_envs (RLTask.num_envs task)
                   (VecEnvBase.set__task task (VecEnvBase.set__world w (self m)))));
           host := h4;
           calls := calls m ++
             [CallWorld 1 (1 / 60) backend sim_params
                (if use_gpu then "cuda" else "cpu");
              CallAddTask w (RLTask.name task)] ++
             (if enabled then []
              else [CallSetExtensionEnabled VecEnvBase.viewport_extension false]) ++
             (if init_sim then [CallWorldReset w] else []) |}.
Proof.
  intros Hret. unfold VecEnvBase.set_task in Hret.
  apply bind_inv in Hret as (device & m0 & H0 & Hret).
  apply select_device_inv in H0 as (-> & use_gpu & Hgpu & ->).
  apply bind_inv in Hret as (w & m1 & HW & Hret).
  apply extern_inv in HW as (h1 & HW & ->).
  apply bind_inv in Hret as (u1 & m2 & H2 & Hret).
  apply modify_self_inv in H2 as ->.
  apply bind_inv in Hret as (w' & m3 & H3 & Hret).
  apply getattr_inv in H3 as [[= <-] ->].
  apply bind_inv in Hret as ([] & m4 & H4 & Hret).
  apply extern_inv in H4 as (h2 & Hadd & ->).
  apply bind_inv in Hret as (u3 & m5 & H5 & Hret).
  apply modify_self_inv in H5 as ->.
  apply bind_inv in Hret as (t1 & m6 & H6 & Hret).
  apply getattr_inv in H6 as [[= <-] ->].
  apply bind_inv in Hret as (u4 & m7 & H7 & Hret).
  apply modify_self_inv in H7 as ->.
  apply bind_inv in Hret as (t2 & m8 & H8 & Hret).
  apply getattr_inv in H8 as [[= <-] ->].
  apply bind_inv in Hret as (u5 & m9 & H9 & Hret).
  apply modify_self_inv in H9 as ->.
  apply bind_inv in Hret as (t3 & m10 & H10 & Hret).
  apply getattr_inv in H10 as [[= <-] ->].
  apply bind_inv in Hret as (u6 & m11 & H11 & Hret).
  apply modify_self_inv in H11 as ->.
  apply bind_inv in Hret as (u7 & m12 & H12 & Hret).
  apply disable_viewport_inv in H12 as (enabled & h3 & Hview & Hext & ->).
  cbn in Hext, Hret.
  exists use_gpu, enabled, w, h1, h2, h3.
  destruct init_sim.
  - apply bind_inv in Hret as (w'' & m13 & H13 & Hret).
    apply getattr_inv in H13 as [[= <-] ->].
    apply extern_inv in Hret as (h4 & Hreset & ->). cbn in Hreset.
    exists h4. repeat (split; [assumption|]). cbn.
    rewrite <- !app_assoc. reflexivity.
  - injection Hret as <-. exists h3.
    repeat (split; [first [assumption | reflexivity]|]). cbn.
    rewrite <- !app_assoc, app_nil_r. reflexivity.
Qed.

(** X8: a [set_task] that returned has constructed a world with [World]
    and registered the task with the world that call returned, on the host
    that call left; [_world] is that world and [_task] the task given.
    Rebinding touches nothing else: [sim_frame_count], [_render] and
    [_simulation_app] are as before. *)
Theorem set_task_binds_world_and_task (task : Task) (backend : string)
    (sim_params : SimParams) (init_sim : bool) (m m' : State)
    (Hret : VecEnvBase.set_task sim task backend sim_params init_sim m = (Normal tt, m')) :
  exists (w : WorldRef) (device : string) (h1 h2 : Host) (rest : list (Call Buffer)),
    Isaac.World sim 1 (1 / 60) backend sim_params device (host m) = (Normal w, h1)
    /\ Isaac.add_task sim w task h1 = (Normal tt, h2)
    /\ new_calls m m' = CallWorld 1 (1 / 60) backend sim_params device
                        :: CallAddTask w (RLTask.name task) :: rest
    /\ VecEnvBase._world (self m') = Some w
    /\ VecEnvBase._task (self m') = Some task
    /\ VecEnvBase.sim_frame_count (self m') = VecEnvBase.sim_frame_count (self m)
    /\ VecEnvBase._render (self m') = VecEnvBase._render (self m)
    /\ VecEnvBase._simulation_app (self m') = VecEnvBase._simulation_app (self m).
Proof.
  destruct (set_task_trace _ _ _ _ _ _ Hret)
    as (use_gpu & enabled & w & h1 & h2 & h3 & h4 & _ & _ & HW & Hadd & _ & _ & ->).
  exists w, (if use_gpu then "cuda" else "cpu"), h1, h2. eexists.
  split; [exact HW|]. split; [exact Hadd|]. split.
  - apply new_calls_app. cbn. reflexivity.
  - cbn. repeat split; reflexivity.
Qed.

(** X9: a [set_task] that returned has called the extension manager
    exactly when [enable_viewport] is in [sim_params] with a false value,
    and then once, with the viewport extension and [False], on the host that
    registering the task left; otherwise nothing happens between the
    registration and the reset.  After it only the reset of the new world
    can follow, so [set_task] enables no extension. *)
Theorem set_task_disables_viewport (task : Task) (backend : string)
    (sim_params : SimParams) (init_sim : bool) (m m' : State)
    (Hret : VecEnvBase.set_task sim task backend sim_params init_sim m = (Normal tt, m')) :
  exists (enabled : bool) (w : WorldRef) (h1 h2 h3 : Host),
    reads_flag sim_params "enable_viewport" true enabled
    /\ Isaac.add_task sim w task h1 = (Normal tt, h2)
    /\ (if enabled then h3 = h2
        else Isaac.set_extension_enabled_immediate sim
               VecEnvBase.viewport_extension false h2 = (Normal tt, h3))
    /\ (if init_sim then Isaac.world_reset sim w h3 = (Normal tt, host m')
        else host m' = h3)
    /\ (In (CallSetExtensionEnabled VecEnvBase.viewport_extension false)
           (new_calls m m') <-> enabled = false)
    /\ (forall (ext : string) (on : bool),
          In (CallSetExtensionEnabled ext on) (new_calls m m') ->
          ext = VecEnvBase.viewport_extension /\ on = false).
Proof.
  destruct (set_task_trace _ _ _ _ _ _ Hret)
    as (use_gpu & enabled & w & h1 & h2 & h3 & h4 & _ & Hview & _ & Hadd & Hext
        & Hreset & ->).
  exists enabled, w, h1, h2, h3.
  split; [exact Hview|]. split; [exact Hadd|]. split; [exact Hext|].
  erewrite new_calls_app by reflexivity. cbn [host]. split; [|split].
  - destruct init_sim; exact Hreset.
  - destruct enabled, init_sim; cbn; intuition congruence.
  - intros ext on. destruct enabled, init_sim; cbn; intuition congruence.
Qed.

(** X10: a [set_task] that returned with [init_sim] true has reset the
    world that [World] returned, as its last call, and its host is the one
    that reset left; with [init_sim] false it has reset no world. *)
Theorem set_task_resets_new_world (task : Task) (backend : string)
    (sim_params : SimParams) (init_sim : bool) (m m' : State)
    (Hret : VecEnvBase.set_task sim task backend sim_params init_sim m = (Normal tt, m')) :
  exists (w : WorldRef) (device : string) (h1 h3 : Host),
    Isaac.World sim 1 (1 / 60) backend sim_params device (host m) = (Normal w, h1)
    /\ VecEnvBase._world (self m') = Some w
    /\ (if init_sim
        then Isaac.world_reset sim w h3 = (Normal tt, host m')
             /\ last (new_calls m m') = Some (CallWorldReset w)
        else host m' = h3)
    /\ (In (CallWorldReset w) (new_calls m m') <-> init_sim = true)
    /\ (forall w', In (CallWorldReset w') (new_calls m m') -> w' = w).
Proof.
  destruct (set_task_trace _ _ _ _ _ _ Hret)
    as (use_gpu & enabled & w & h1 & h2 & h3 & h4 & _ & _ & HW & _ & _
        & Hreset & ->).
  exists w, (if use_gpu then "cuda" else "cpu"), h1, h3.
  split; [exact HW|]. split; [reflexivity|].
  erewrite new_calls_app by reflexivity. cbn [host]. split; [|split].
  - destruct init_sim; [|exact Hreset].
    split; [exact Hreset|]. destruct enabled; reflexivity.
  - destruct enabled, init_sim; cbn; intuition congruence.
  - intros w'. destruct enabled, init_sim; cbn; intuition congruence.
Qed.

(** X11: after a [set_task] that returned, the next [step] starts with the
    pre-physics hook of the task just bound, given the actions as they are,
    however the step ends. *)
Theorem step_after_set_task (task : Task) (backend : string)
    (sim_params : SimParams) (init_sim : bool) (m m' : State)
    (actions : Buffer)
    (Hret : VecEnvBase.set_task sim task backend sim_params init_sim m = (Normal tt, m')) :
  exists rest : list (Call Buffer),
    new_calls m' (snd (VecEnvBase.step sim actions m'))
    = CallPrePhysicsStep (RLTask.name task) actions :: rest.
Proof.
  destruct (set_task_assignments _ _ _ _ _ _ Hret) as [w E].
  assert (Ht : VecEnvBase._task (self m') = Some task) by (rewrite E; reflexivity).
  unfold VecEnvBase.step. run. rewrite Ht; run.
  repeat (case_match; run; simplify_eq);
    eexists;
    (erewrite new_calls_app by (cbn; rewrite <- ?app_assoc; reflexivity));
    reflexivity.
Qed.

Lemma bind_raise {S A B : Type} (c : M S Host Buffer A) (k : A -> M S Host Buffer B)
    (m m' : Machine S Host Buffer) (e : Exn) :
  c m = (Raise e, m') -> (c ≫= k) m = (Raise e, m').
Proof.
  intros E. unfold mbind, M_bind. rewrite E. reflexivity.
Qed.

Lemma extern_raise {S A : Type} (c : Call Buffer) (f : Host -> Outcome A * Host)
    (m : Machine S Host Buffer) (e : Exn) (h : Host) :
  f (host m) = (Raise e, h) ->
  extern c f m = (Raise e, {| self := self m; host := h; calls := calls m ++ [c] |}).
Proof.
  intros E. unfold extern. rewrite E. reflexivity.
Qed.

(** X12: [set_task] truth-tests the value under [use_gpu_pipeline] itself.
    When [sim_params] has the key and the truth test of its value raises (as
    that of an array of several elements does), [set_task] raises that
    exception at once: no world is constructed, nothing is called and
    nothing is assigned. *)
Theorem set_task_aborted_by_truth_test (task : Task) (backend : string)
    (sim_params : SimParams) (init_sim : bool) (m : State) (v : PyVal) (e : Exn)
    (Htruth : params_truth sim_params = Normal true)
    (Hin : params_contains sim_params "use_gpu_pipeline" = Normal true)
    (Hget : params_getitem sim_params "use_gpu_pipeline" = Normal v)
    (Hval : truthy v = Raise e) :
  VecEnvBase.set_task sim task backend sim_params init_sim m = (Raise e, m).
Proof.
  unfold VecEnvBase.set_task. apply bind_raise.
  unfold VecEnvBase.select_device, VecEnvBase.has_param, VecEnvBase.param. run.
  rewrite Htruth; run. rewrite Hin; run. rewrite Hget; run. rewrite Hval; run.
  reflexivity.
Qed.

(** X21: when [World] raises, [set_task] raises the same exception after
    that one call and has assigned nothing: an adapter that was bound
    stays bound to its old world and task. *)
Theorem set_task_aborted_by_world (task : Task) (backend : string)
    (sim_params : SimParams) (init_sim : bool) (m : State) (use_gpu : bool)
    (e : Exn) (h1 : Host)
    (Hgpu : reads_flag sim_params "use_gpu_pipeline" false use_gpu)
    (HWorld : Isaac.World sim 1 (1 / 60) backend sim_params
                (if use_gpu then "cuda" else "cpu") (host m) = (Raise e, h1)) :
  VecEnvBase.set_task sim task backend sim_params init_sim m =
    (Raise e,
     {| self := self m; host := h1;
        calls := calls m ++
          [CallWorld 1 (1 / 60) backend sim_params
             (if use_gpu then "cuda" else "cpu")] |}).
Proof.
  unfold VecEnvBase.set_task.
  erewrite bind_normal by (apply select_device_reads; exact Hgpu).
  apply bind_raise. apply extern_raise. exact HWorld.
Qed.

(** X22: when registering the task raises, [set_task] raises the same
    exception with the adapter half bound: [_world] is already the new
    world, while [_task], [_num_envs] and the two spaces are still the old
    ones (or still missing). *)
Theorem set_task_aborted_by_add_task (task : Task) (backend : string)
    (sim_params : SimParams) (init_sim : bool) (m : State) (use_gpu : bool)
    (w : WorldRef) (e : Exn) (h1 h2 : Host)
    (Hgpu : reads_flag sim_params "use_gpu_pipeline" false use_gpu)
    (HWorld : Isaac.World sim 1 (1 / 60) backend sim_params
                (if use_gpu then "cuda" else "cpu") (host m) = (Normal w, h1))
    (Hadd : Isaac.add_task sim w task h1 = (Raise e, h2)) :
  VecEnvBase.set_task sim task backend sim_params init_sim m =
    (Raise e,
     {| self := VecEnvBase.set__world w (self m); host := h2;
        calls := calls m ++
          [CallWorld 1 (1 / 60) backend sim_params
             (if use_gpu then "cuda" else "cpu");
           CallAddTask w (RLTask.name task)] |}).
Proof.
  unfold VecEnvBase.set_task.
  erewrite bind_normal by (apply select_device_reads; exact Hgpu).
  erewrite bind_normal by (apply extern_normal; exact HWorld).
  do 2 (erewrite bind_normal by reflexivity).
  erewrite bind_raise by (apply extern_raise; exact Hadd).
  cbn. rewrite <- !app_assoc. reflexivity.
Qed.

(** X23: [set_task] truth-tests the value under [enable_viewport] after it
    has bound everything.  When that test raises, [set_task] raises the
    exception with the world constructed, the task registered and all five
    attributes assigned, and without the reset that [init_sim] asks for. *)
Theorem set_task_aborted_by_viewport_test (task : Task) (backend : string)
    (sim_params : SimParams) (init_sim : bool) (m : State) (use_gpu : bool)
    (w : WorldRef) (v : PyVal) (e : Exn) (h1 h2 : Host)
    (Hgpu : reads_flag sim_params "use_gpu_pipeline" false use_gpu)
    (HWorld : Isaac.World sim 1 (1 / 60) backend sim_params
                (if use_gpu then "cuda" else "cpu") (host m) = (Normal w, h1))
    (Hadd : Isaac.add_task sim w task h1 = (Normal tt, h2))
    (Htruth : params_truth sim_params = Normal true)
    (Hin : params_contains sim_params "enable_viewport" = Normal true)
    (Hget : params_getitem sim_params "enable_viewport" = Normal v)
    (Hval : truthy v = Raise e) :
  VecEnvBase.set_task sim task backend sim_params init_sim m =
    (Raise e,
     {| self :=
          VecEnvBase.set_action_space (RLTask.action_space task)
            (VecEnvBase.set_observation_space (RLTask.observation_space task)
              (VecEnvBase.set__num_envs (RLTask.num_envs task)
                (VecEnvBase.set__task task (VecEnvBase.set__world w (self m)))));
        host := h2;
        calls := calls m ++
          [CallWorld 1 (1 / 60) backend sim_params
             (if use_gpu then "cuda" else "cpu");
           CallAddTask w (RLTask.name task)] |}).
Proof.
  unfold VecEnvBase.set_task.
  erewrite bind_normal by (apply select_device_reads; exact Hgpu).
  erewrite bind_normal by (apply extern_normal; exact HWorld).
  do 2 (erewrite bind_normal by reflexivity).
  erewrite bind_normal by (apply extern_normal; exact Hadd).
  do 7 (erewrite bind_normal by reflexivity).
  erewrite bind_raise
    by (unfold VecEnvBase.disable_viewport, VecEnvBase.has_param, VecEnvBase.param;
        run; rewrite Htruth; run; rewrite Hin; run; rewrite Hget; run;
        rewrite Hval; run; reflexivity).
  cbn. rewrite <- !app_assoc. reflexivity.
Qed.

(** ** Further properties: what a session never changes *)

(** One call keeps what [__init__] recorded, and keeps the binding unless
    it is [set_task]. *)
Lemma invoke_attributes (i : Invocation) (m : State) :
  VecEnvBase._render (self (snd (invoke sim i m))) = VecEnvBase._render (self m)
  /\ VecEnvBase._simulation_app (self (snd (invoke sim i m)))
     = VecEnvBase._simulation_app (self m)
  /\ (is_set_task i = false ->
      VecEnvBase._world (self (snd (invoke sim i m))) = VecEnvBase._world (self m)
      /\ VecEnvBase._task (self (snd (invoke sim i m))) = VecEnvBase._task (self m)
      /\ VecEnvBase._num_envs (self (snd (invoke sim i m)))
         = VecEnvBase._num_envs (self m)
      /\ VecEnvBase.observation_space (self (snd (invoke sim i m)))
         = VecEnvBase.observation_space (self m)
      /\ VecEnvBase.action_space (self (snd (invoke sim i m)))
         = VecEnvBase.action_space (self m)).
Proof.
  destruct i; unfold invoke, VecEnvBase.set_task, VecEnvBase.select_device,
    VecEnvBase.disable_viewport, VecEnvBase.has_param, VecEnvBase.param,
    VecEnvBase.step,
    VecEnvBase.reset, VecEnvBase.render, VecEnvBase.seed, VecEnvBase.num_envs,
    VecEnvBase.close; run;
    repeat (case_match; run; simplify_eq); cbn;
    (split; [reflexivity|]); (split; [reflexivity|]);
    intros ?; try discriminate; repeat split;
    first [reflexivity | assumption].
Qed.

(** X13: the render flag and the application handle are fixed at
    construction: no sequence of [set_task], [step], [reset], [render],
    [seed], [num_envs] and [close] calls, failing or not, changes
    [_render] or [_simulation_app]. *)
Theorem session_keeps_render_flag (l : list Invocation) (m : State) :
  VecEnvBase._render (self (session sim l m)) = VecEnvBase._render (self m)
  /\ VecEnvBase._simulation_app (self (session sim l m))
     = VecEnvBase._simulation_app (self m).
Proof.
  revert m. induction l as [|i l IH]; intros m; [split; reflexivity|].
  cbn [session]. destruct (IH (snd (invoke sim i m))) as [R A].
  destruct (invoke_attributes i m) as (R' & A' & _).
  rewrite R, A, R', A'. split; reflexivity.
Qed.

(** X14: only [set_task] binds.  Over any sequence of calls without a
    [set_task], whatever raises in between, [_world], [_task], the cached
    [_num_envs] and the two spaces stay what they were; [close] in
    particular unbinds nothing. *)
Theorem session_without_set_task (l : list Invocation) (m : State)
    (Hl : forallb (fun i => negb (is_set_task i)) l = true) :
  VecEnvBase._world (self (session sim l m)) = VecEnvBase._world (self m)
  /\ VecEnvBase._task (self (session sim l m)) = VecEnvBase._task (self m)
  /\ VecEnvBase._num_envs (self (session sim l m)) = VecEnvBase._num_envs (self m)
  /\ VecEnvBase.observation_space (self (session sim l m))
     = VecEnvBase.observation_space (self m)
  /\ VecEnvBase.action_space (self (session sim l m))
     = VecEnvBase.action_space (self m).
Proof.
  revert m. induction l as [|i l IH]; intros m; [repeat split; reflexivity|].
  cbn [forallb] in Hl. apply andb_true_iff in Hl as [Hi Hl].
  apply negb_true_iff in Hi.
  cbn [session]. destruct (IH Hl (snd (invoke sim i m))) as (W & T & N & O & A).
  destruct (invoke_attributes i m) as (_ & _ & K).
  destruct (K Hi) as (W' & T' & N' & O' & A').
  rewrite W, T, N, O, A, W', T', N', O', A'. repeat split; reflexivity.
Qed.

(** One call only adds to the log, and each world step it adds carries the
    render flag. *)
Lemma invoke_world_steps (i : Invocation) (m : State) :
  exists l1 : list (Call Buffer),
    calls (snd (invoke sim i m)) = calls m ++ l1
    /\ Forall (fun c => match c with
                       | CallWorldStep _ r => r = VecEnvBase._render (self m)
                       | _ => True
                       end) l1.
Proof.
  destruct i; unfold invoke, VecEnvBase.set_task, VecEnvBase.select_device,
    VecEnvBase.disable_viewport, VecEnvBase.has_param, VecEnvBase.param,
    VecEnvBase.step,
    VecEnvBase.reset, VecEnvBase.render, VecEnvBase.seed, VecEnvBase.num_envs,
    VecEnvBase.close; run;
    repeat (case_match; run; simplify_eq); cbn;
    first
      [ exists []; split; [symmetry; apply app_nil_r | constructor]
      | eexists; split;
        [rewrite <- ?app_assoc; reflexivity | repeat constructor] ].
Qed.

(** X15: the render flag governs every tick.  In any sequence of calls,
    every world step the adapter asks for, from [step] or from [reset],
    carries [render=self._render] as it was at the start; an adapter built
    headless therefore never asks a tick to render. *)
Theorem session_world_steps_carry_flag (l : list Invocation) (m : State) :
  Forall (fun c => match c with
                   | CallWorldStep _ r => r = VecEnvBase._render (self m)
                   | _ => True
                   end)
         (new_calls m (session sim l m)).
Proof.
  assert (G : exists L, calls (session sim l m) = calls m ++ L
                        /\ Forall (fun c => match c with
                                           | CallWorldStep _ r =>
                                               r = VecEnvBase._render (self m)
                                           | _ => True
                                           end) L).
  { revert m. induction l as [|i l IH]; intros m.
    - exists []. split; [symmetry; apply app_nil_r | constructor].
    - cbn [session].
      destruct (invoke_world_steps i m) as (l1 & E1 & F1).
      destruct (IH (snd (invoke sim i m))) as (L & E & F).
      destruct (invoke_attributes i m) as (R & _).
      rewrite R in F.
      exists (l1 ++ L). split.
      + rewrite E, E1, app_assoc. reflexivity.
      + apply Forall_app. split; assumption. }
  destruct G as (L & E & F). rewrite (new_calls_app _ _ _ E). exact F.
Qed.

(** X20: for any mode other than ["human"], [render] needs no world: bound
    or not, it makes the one call to the base class and ends as that call
    ends, so an exception of the base class is the caller's. *)
Theorem render_other_modes (mode : string) (m : State)
    (Hmode : mode <> "human") :
  new_calls m (snd (VecEnvBase.render sim mode m)) = [CallGymEnvRender mode]
  /\ fst (VecEnvBase.render sim mode m) = fst (Isaac.gym_Env_render sim mode (host m))
  /\ host (snd (VecEnvBase.render sim mode m))
     = snd (Isaac.gym_Env_render sim mode (host m)).
Proof.
  unfold VecEnvBase.render.
  destruct (String.eqb_spec mode "human") as [E|_]; [contradiction|].
  unfold extern. destruct (Isaac.gym_Env_render sim mode (host m)) as [r h]. cbn.
  erewrite new_calls_app by reflexivity. repeat split; reflexivity.
Qed.

End Properties.

(** ** The theorems at the mock host *)

(** [rendering_dt] is the double nearest to one sixtieth. *)
Example rendering_dt_binary64 :
  CallWorld (Buffer:=Mock.Buffer) 1 (1 / 60) "numpy" ParamsNone "cpu"
  = CallWorld 1 0x1.1111111111111p-6 "numpy" ParamsNone "cpu".
Proof. reflexivity. Qed.

Example select_device_gpu :
  fst (VecEnvBase.select_device Mock.gpu_params Mock.unbound) = Normal "cuda".
Proof. reflexivity. Qed.

Example select_device_none :
  fst (VecEnvBase.select_device ParamsNone Mock.unbound) = Normal "cpu".
Proof. reflexivity. Qed.

Example select_device_empty :
  fst (VecEnvBase.select_device (ParamsDict ∅) Mock.unbound) = Normal "cpu".
Proof. reflexivity. Qed.

Example select_device_zero :
  fst (VecEnvBase.select_device (ParamsDict {[ "use_gpu_pipeline" := PyInt 0 ]})
         Mock.unbound)
  = Normal "cpu".
Proof. reflexivity. Qed.

(** Any non-empty string is true, ["False"] too. *)
Example select_device_string :
  fst (VecEnvBase.select_device (ParamsDict {[ "use_gpu_pipeline" := PyStr "False" ]})
         Mock.unbound)
  = Normal "cuda".
Proof. reflexivity. Qed.

(** A true object without keys, an integer say, fails the membership
    test. *)
Example select_device_integer :
  fst (VecEnvBase.select_device
         (ParamsObject (Normal true)
            (fun _ => Raise (TypeError "argument of type 'int' is not iterable"))
            (fun _ => Raise (TypeError "'int' object is not subscriptable")))
         Mock.unbound)
  = Raise (TypeError "argument of type 'int' is not iterable").
Proof. reflexivity. Qed.

(** Two steps and a reset in between: the counter ends at 2. *)
Example session_counts_steps :
  VecEnvBase.sim_frame_count
    (self (session Mock.sim [InvStep [0]; InvReset; InvRender "human"; InvStep [1]]
             (Mock.bound Mock.cartpole))) = 2.
Proof. reflexivity. Qed.

(** A frame drawn by [render] shows in the host and not in the counter. *)
Example render_frame_not_counted :
  Mock.frames (host (snd (VecEnvBase.render Mock.sim "human" (Mock.bound Mock.cartpole))))
  = 1
  /\ VecEnvBase.sim_frame_count
       (self (snd (VecEnvBase.render Mock.sim "human" (Mock.bound Mock.cartpole)))) = 0.
Proof. split; reflexivity. Qed.

(** Before [set_task] there is no task to step. *)
Example step_unbound :
  fst (VecEnvBase.step Mock.sim [0] Mock.unbound) = Raise (AttributeError "_task").
Proof. reflexivity. Qed.

(** A step of the bound mock adapter: four observations, one frame counted. *)
Lemma step_returns_four_tuple_witness :
  fst (VecEnvBase.step Mock.sim [3; -1] (Mock.bound Mock.cartpole))
    = Normal ([1; 1; 1; 1], [1; 1; 1; 1], [0; 0; 0; 0], ∅)
  /\ VecEnvBase.sim_frame_count
       (self (snd (VecEnvBase.step Mock.sim [3; -1] (Mock.bound Mock.cartpole)))) = 1
  /\ calls (snd (VecEnvBase.step Mock.sim [3; -1] (Mock.bound Mock.cartpole)))
     = [CallPrePhysicsStep "Cartpole" [3; -1]; CallWorldStep 1%nat true;
        CallGetObservations "Cartpole"; CallCalculateMetrics "Cartpole";
        CallIsDone "Cartpole"].
Proof.
  rewrite (step_returns_four_tuple Mock.sim [3; -1] (Mock.bound Mock.cartpole)
             Mock.cartpole 1%nat Mock.boot (Mock.tick true Mock.boot)
             (Mock.tick true Mock.boot) (Mock.tick true Mock.boot)
             (Mock.tick true Mock.boot) [1; 1; 1; 1] [1; 1; 1; 1] [0; 0; 0; 0]
             eq_refl eq_refl eq_refl eq_refl eq_refl eq_refl eq_refl).
  repeat split; reflexivity.
Defined.

(** The faulty task rejects the actions and the counter stays at 0. *)
Lemma step_aborted_by_pre_physics_witness :
  fst (VecEnvBase.step Mock.sim [3; -1] (Mock.bound Mock.faulty))
    = Raise (HostError "bad actions")
  /\ VecEnvBase.sim_frame_count
       (self (snd (VecEnvBase.step Mock.sim [3; -1] (Mock.bound Mock.faulty)))) = 0.
Proof.
  destruct (step_aborted_by_pre_physics Mock.sim [3; -1] (Mock.bound Mock.faulty)
              Mock.faulty (HostError "bad actions") Mock.boot eq_refl eq_refl)
    as (E & F & _).
  split; [rewrite E; reflexivity | rewrite F; reflexivity].
Defined.

(** A reset of the bound mock adapter. *)
Lemma reset_returns_observations_witness :
  fst (VecEnvBase.reset Mock.sim (Mock.bound Mock.cartpole)) = Normal [1; 1; 1; 1]
  /\ calls (snd (VecEnvBase.reset Mock.sim (Mock.bound Mock.cartpole)))
     = [CallTaskReset "Cartpole"; CallWorldStep 1%nat true;
        CallGetObservations "Cartpole"].
Proof.
  destruct (reset_returns_observations Mock.sim (Mock.bound Mock.cartpole)
              Mock.cartpole 1%nat Mock.boot (Mock.tick true Mock.boot)
              (Mock.tick true Mock.boot) [1; 1; 1; 1]
              eq_refl eq_refl eq_refl eq_refl eq_refl) as (E & _).
  rewrite E. split; reflexivity.
Defined.

(** The human mode on the bound mock adapter: a frame is drawn. *)
Lemma render_human_only_witness :
  VecEnvBase.render Mock.sim "human" (Mock.bound Mock.cartpole)
  = (Normal tt,
     {| self := self (Mock.bound Mock.cartpole); host := Mock.tick true Mock.boot;
        calls := [CallWorldRender 1%nat] |}).
Proof.
  exact (proj1 (render_human_only Mock.sim "human" (Mock.bound Mock.cartpole) 1%nat
                  eq_refl) eq_refl).
Defined.

(** Counterexample for C6: the base class of gym raises for every mode,
    so [render "rgb_array"] raises and is no no-op. *)
Lemma render_other_mode_raises :
  VecEnvBase.render Mock.sim "rgb_array" (Mock.bound Mock.cartpole)
  = (Raise NotImplementedError,
     {| self := self (Mock.bound Mock.cartpole); host := Mock.boot;
        calls := [CallGymEnvRender "rgb_array"] |}).
Proof. reflexivity. Qed.

(** Counterexample for C4: a [step] call whose pre-physics hook raises
    leaves the counter where it was, not one higher. *)
Lemma frame_counter_step_not_counted :
  fst (VecEnvBase.step Mock.sim [3; -1] (Mock.bound Mock.faulty))
    = Raise (HostError "bad actions")
  /\ VecEnvBase.sim_frame_count
       (self (snd (VecEnvBase.step Mock.sim [3; -1] (Mock.bound Mock.faulty))))
     = VecEnvBase.sim_frame_count (self (Mock.bound Mock.faulty))
  /\ Z.eqb
       (VecEnvBase.sim_frame_count
          (self (snd (VecEnvBase.step Mock.sim [3; -1] (Mock.bound Mock.faulty)))))
       (VecEnvBase.sim_frame_count (self (Mock.bound Mock.faulty)) + 1)
     = false.
Proof. repeat split; reflexivity. Qed.

(** Two steps around a reset and a render on the mock adapter: two ticks,
    and the counter at 2. *)
Lemma frame_counter_counts_ticks_witness :
  VecEnvBase.sim_frame_count
    (self (session Mock.sim [InvStep [0]; InvReset; InvRender "human"; InvStep [1]]
             (Mock.bound Mock.cartpole))) = 2
  /\ VecEnvBase.sim_frame_count
       (self (snd (VecEnvBase.step Mock.sim [0] (Mock.bound Mock.faulty)))) = 0.
Proof.
  destruct (frame_counter_counts_ticks Mock.sim) as (_ & S & _ & L).
  destruct (L [InvStep [0]; InvReset; InvRender "human"; InvStep [1]]
              (Mock.bound Mock.cartpole)) as [E _].
  split; [rewrite E; reflexivity | rewrite S; reflexivity].
Defined.



(** A headless launch with [EXP_PATH] set to [/isaac/apps]. *)
Lemma init_records_render_flag_witness :
  fst (VecEnvBase.__init__ Mock.sim true 0 Mock.start)
    = Normal {| VecEnvBase._simulation_app := 0%nat;
                VecEnvBase._render := false;
                VecEnvBase.sim_frame_count := 0;
                VecEnvBase._world := None; VecEnvBase._task := None;
                VecEnvBase._num_envs := None;
                VecEnvBase.observation_space := None;
                VecEnvBase.action_space := None |}
  /\ calls (snd (VecEnvBase.__init__ Mock.sim true 0 Mock.start))
     = [CallEnvironGet "EXP_PATH";
        CallSimulationApp true 0 "/isaac/apps/omni.isaac.sim.python.gym.headless.kit";
        CallSettingsSet "/persistent/omnihydra/useSceneGraphInstancing" true].
Proof.
  assert (Henv : true = true ->
                 is_Some (Isaac.environ Mock.sim (host Mock.start) !! "EXP_PATH"))
    by (intros _; eexists; reflexivity).
  destruct (init_records_render_flag Mock.sim true 0 Mock.start 0%nat
              (snd (Mock.fresh Mock.boot)) (snd (Mock.fresh Mock.boot))
              Henv eq_refl eq_refl) as (E & _).
  rewrite E. split; reflexivity.
Defined.

(** Binding the cartpole task with the GPU pipeline requested. *)
Lemma set_task_copies_declarations_witness :
  VecEnvBase.num_envs
    (snd (VecEnvBase.set_task Mock.sim Mock.cartpole "numpy" Mock.gpu_params true
            Mock.unbound))
    = (Normal 4,
       snd (VecEnvBase.set_task Mock.sim Mock.cartpole "numpy" Mock.gpu_params true
              Mock.unbound))
  /\ VecEnvBase.observation_space
       (self (snd (VecEnvBase.set_task Mock.sim Mock.cartpole "numpy" Mock.gpu_params
                     true Mock.unbound))) = Some 4%nat
  /\ VecEnvBase.action_space
       (self (snd (VecEnvBase.set_task Mock.sim Mock.cartpole "numpy" Mock.gpu_params
                     true Mock.unbound))) = Some 1%nat.
Proof.
  assert (Hret :
    VecEnvBase.set_task Mock.sim Mock.cartpole "numpy" Mock.gpu_params true Mock.unbound
    = (Normal tt,
       snd (VecEnvBase.set_task Mock.sim Mock.cartpole "numpy" Mock.gpu_params true
              Mock.unbound)))
    by (vm_compute; reflexivity).
  destruct (set_task_copies_declarations Mock.sim Mock.cartpole "numpy"
              Mock.gpu_params true Mock.unbound _ Hret) as (N & O & A & _).
  repeat split; assumption.
Defined.

(** Seeding the mock host with 5 and with -1. *)
Lemma seed_forwards_value_witness :
  fst (VecEnvBase.seed Mock.sim 5 (Mock.bound Mock.cartpole)) = Normal 5
  /\ fst (VecEnvBase.seed Mock.sim (-1) (Mock.bound Mock.cartpole)) = Normal 2345
  /\ new_calls (Mock.bound Mock.cartpole)
       (snd (VecEnvBase.seed Mock.sim (-1) (Mock.bound Mock.cartpole)))
     = [CallSetSeed (-1)].
Proof.
  destruct (seed_forwards_value Mock.sim Mock.draw Mock.apply (-1)
              (Mock.bound Mock.cartpole) eq_refl) as (L & _ & R & F & _).
  repeat split; assumption.
Defined.

(** ** The further properties at the mock hosts *)

(** Closing the bound mock adapter. *)
Lemma close_clears_then_closes_witness :
  fst (VecEnvBase.close Mock.sim (Mock.bound Mock.cartpole)) = Normal tt
  /\ calls (snd (VecEnvBase.close Mock.sim (Mock.bound Mock.cartpole)))
     = [CallRootLayerClear; CallAppClose 0%nat].
Proof.
  rewrite (close_clears_then_closes Mock.sim (Mock.bound Mock.cartpole)
             Mock.boot Mock.boot eq_refl eq_refl).
  split; reflexivity.
Defined.

(** On the stalled host the stage cannot be cleared. *)
Lemma close_aborted_by_clear_witness :
  VecEnvBase.close Mock.stalled (Mock.bound Mock.cartpole)
  = (Raise (HostError "no stage"),
     {| self := self (Mock.bound Mock.cartpole); host := Mock.boot;
        calls := [CallRootLayerClear] |}).
Proof.
  exact (close_aborted_by_clear Mock.stalled (Mock.bound Mock.cartpole)
           (HostError "no stage") Mock.boot eq_refl).
Defined.

(** A headless launch in the bare environment. *)
Lemma init_headless_without_exp_path_witness :
  VecEnvBase.__init__ Mock.sim true 0 Mock.bare
  = (Raise (KeyError "EXP_PATH"),
     {| self := tt; host := host Mock.bare; calls := [CallEnvironGet "EXP_PATH"] |}).
Proof.
  exact (init_headless_without_exp_path Mock.sim 0 Mock.bare eq_refl).
Defined.

(** A launch with a display on the host without a GPU. *)
Lemma init_launch_failure_witness :
  VecEnvBase.__init__ Mock.stalled false 3 Mock.start
  = (Raise (HostError "no GPU"),
     {| self := tt; host := Mock.boot; calls := [CallSimulationApp false 3 ""] |}).
Proof.
  assert (Henv : false = true ->
                 is_Some (Isaac.environ Mock.stalled (host Mock.start) !! "EXP_PATH"))
    by discriminate.
  exact (init_launch_failure Mock.stalled false 3 Mock.start (HostError "no GPU")
           Mock.boot Henv eq_refl).
Defined.

(** The unbound mock adapter refuses a step and a reset. *)
Lemma methods_before_set_task_witness :
  VecEnvBase.step Mock.sim [7] Mock.unbound
    = (Raise (AttributeError "_task"), Mock.unbound)
  /\ VecEnvBase.reset Mock.sim Mock.unbound
     = (Raise (AttributeError "_task"), Mock.unbound).
Proof.
  destruct (methods_before_set_task Mock.sim [7] Mock.unbound eq_refl eq_refl eq_refl)
    as (S & R & _).
  split; assumption.
Defined.

(** The broken task gives no observations; the frame is counted. *)
Lemma step_aborted_by_observations_witness :
  fst (VecEnvBase.step Mock.sim [7] (Mock.bound Mock.broken))
    = Raise (HostError "no sensors")
  /\ VecEnvBase.sim_frame_count
       (self (snd (VecEnvBase.step Mock.sim [7] (Mock.bound Mock.broken)))) = 1.
Proof.
  rewrite (step_aborted_by_observations Mock.sim [7] (Mock.bound Mock.broken)
             Mock.broken 1%nat (HostError "no sensors")
             Mock.boot (Mock.tick true Mock.boot) (Mock.tick true Mock.boot)
             eq_refl eq_refl eq_refl eq_refl eq_refl).
  split; reflexivity.
Defined.

(** The broken task cannot be reset. *)
Lemma reset_aborted_by_hook_witness :
  VecEnvBase.reset Mock.sim (Mock.bound Mock.broken)
  = (Raise (HostError "no scene"),
     {| self := self (Mock.bound Mock.broken); host := Mock.boot;
        calls := [CallTaskReset "Broken"] |}).
Proof.
  exact (reset_aborted_by_hook Mock.sim (Mock.bound Mock.broken) Mock.broken
           (HostError "no scene") Mock.boot eq_refl eq_refl).
Defined.

(** On the stalled host the tick fails and the counter stays at 0. *)
Lemma step_aborted_by_tick_witness :
  fst (VecEnvBase.step Mock.stalled [7] (Mock.bound Mock.cartpole))
    = Raise (HostError "physics stalled")
  /\ VecEnvBase.sim_frame_count
       (self (snd (VecEnvBase.step Mock.stalled [7] (Mock.bound Mock.cartpole)))) = 0.
Proof.
  rewrite (step_aborted_by_tick Mock.stalled [7] (Mock.bound Mock.cartpole)
             Mock.cartpole 1%nat (HostError "physics stalled") Mock.boot Mock.boot
             eq_refl eq_refl eq_refl eq_refl).
  split; reflexivity.
Defined.

(** The broken task's hook raises, and it was called once. *)
Lemma reset_calls_hook_once_witness :
  count_calls is_task_reset
    (new_calls (Mock.bound Mock.broken)
       (snd (VecEnvBase.reset Mock.sim (Mock.bound Mock.broken)))) = 1%nat.
Proof.
  exact (proj1 (reset_calls_hook_once Mock.sim (Mock.bound Mock.broken) Mock.broken
                  eq_refl)).
Defined.

(** The mock base class refuses [rgb_array], and so does [render]. *)
Lemma render_other_modes_witness :
  fst (VecEnvBase.render Mock.sim "rgb_array" Mock.unbound) = Raise NotImplementedError.
Proof.
  assert (Hmode : "rgb_array" <> "human") by discriminate.
  destruct (render_other_modes Mock.sim "rgb_array" Mock.unbound Hmode) as (_ & R & _).
  exact R.
Defined.

(** A session of steps, resets, renders and a close keeps the binding. *)
Lemma session_without_set_task_witness :
  VecEnvBase._num_envs
    (self (session Mock.sim [InvStep [0]; InvReset; InvRender "rgb_array"; InvClose]
             (Mock.bound Mock.cartpole))) = Some 4.
Proof.
  destruct (session_without_set_task Mock.sim
              [InvStep [0]; InvReset; InvRender "rgb_array"; InvClose]
              (Mock.bound Mock.cartpole) eq_refl) as (_ & _ & N & _).
  exact N.
Defined.

(** Binding the cartpole task: world 0 is constructed, the task added. *)
Lemma set_task_binds_world_and_task_witness :
  VecEnvBase._world
    (self (snd (VecEnvBase.set_task Mock.sim Mock.cartpole "numpy" Mock.gpu_params true
                  Mock.unbound))) = Some 0%nat
  /\ VecEnvBase.sim_frame_count
       (self (snd (VecEnvBase.set_task Mock.sim Mock.cartpole "numpy" Mock.gpu_params
                     true Mock.unbound))) = 0.
Proof.
  assert (Hret :
    VecEnvBase.set_task Mock.sim Mock.cartpole "numpy" Mock.gpu_params true Mock.unbound
    = (Normal tt,
       snd (VecEnvBase.set_task Mock.sim Mock.cartpole "numpy" Mock.gpu_params true
              Mock.unbound)))
    by (vm_compute; reflexivity).
  destruct (set_task_binds_world_and_task Mock.sim Mock.cartpole "numpy"
              Mock.gpu_params true Mock.unbound _ Hret)
    as (w & device & h1 & h2 & rest & _ & _ & _ & _ & _ & F & _).
  split; [reflexivity | exact F].
Defined.

(** [Mock.gpu_params] has [enable_viewport] false: the viewport goes. *)
Lemma set_task_disables_viewport_witness :
  exists enabled : bool,
    reads_flag Mock.gpu_params "enable_viewport" true enabled
    /\ (In (CallSetExtensionEnabled "omni.kit.window.viewport" false)
           (new_calls Mock.unbound
              (snd (VecEnvBase.set_task Mock.sim Mock.cartpole "numpy" Mock.gpu_params
                      true Mock.unbound)))
        <-> enabled = false).
Proof.
  assert (Hret :
    VecEnvBase.set_task Mock.sim Mock.cartpole "numpy" Mock.gpu_params true Mock.unbound
    = (Normal tt,
       snd (VecEnvBase.set_task Mock.sim Mock.cartpole "numpy" Mock.gpu_params true
              Mock.unbound)))
    by (vm_compute; reflexivity).
  destruct (set_task_disables_viewport Mock.sim Mock.cartpole "numpy"
              Mock.gpu_params true Mock.unbound _ Hret)
    as (enabled & w & h1 & h2 & h3 & V & _ & _ & _ & I & _).
  exists enabled. split; [exact V | exact I].
Defined.

(** With [init_sim] the new world is reset, as the last call. *)
Lemma set_task_resets_new_world_witness :
  exists w : WorldRef,
    VecEnvBase._world
      (self (snd (VecEnvBase.set_task Mock.sim Mock.cartpole "numpy" ParamsNone true
                    Mock.unbound))) = Some w
    /\ In (CallWorldReset w)
         (new_calls Mock.unbound
            (snd (VecEnvBase.set_task Mock.sim Mock.cartpole "numpy" ParamsNone true
                    Mock.unbound))).
Proof.
  assert (Hret :
    VecEnvBase.set_task Mock.sim Mock.cartpole "numpy" ParamsNone true Mock.unbound
    = (Normal tt,
       snd (VecEnvBase.set_task Mock.sim Mock.cartpole "numpy" ParamsNone true
              Mock.unbound)))
    by (vm_compute; reflexivity).
  destruct (set_task_resets_new_world Mock.sim Mock.cartpole "numpy" ParamsNone true
              Mock.unbound _ Hret) as (w & device & h1 & h3 & _ & W & _ & I & _).
  exists w. split; [exact W | apply I; reflexivity].
Defined.

(** Rebinding from the faulty task to the cartpole: the next step is the
    cartpole's. *)
Lemma step_after_set_task_witness :
  exists rest : list (Call Mock.Buffer),
    new_calls
      (snd (VecEnvBase.set_task Mock.sim Mock.cartpole "torch" ParamsNone false
              (Mock.bound Mock.faulty)))
      (snd (VecEnvBase.step Mock.sim [5]
              (snd (VecEnvBase.set_task Mock.sim Mock.cartpole "torch" ParamsNone false
                      (Mock.bound Mock.faulty)))))
    = CallPrePhysicsStep "Cartpole" [5] :: rest.
Proof.
  assert (Hret :
    VecEnvBase.set_task Mock.sim Mock.cartpole "torch" ParamsNone false
      (Mock.bound Mock.faulty)
    = (Normal tt,
       snd (VecEnvBase.set_task Mock.sim Mock.cartpole "torch" ParamsNone false
              (Mock.bound Mock.faulty))))
    by (vm_compute; reflexivity).
  exact (step_after_set_task Mock.sim Mock.cartpole "torch" ParamsNone false
           (Mock.bound Mock.faulty) _ [5] Hret).
Defined.

(** An array under [use_gpu_pipeline]: [set_task] raises and has done
    nothing. *)
Lemma set_task_aborted_by_truth_test_witness :
  VecEnvBase.set_task Mock.sim Mock.cartpole "numpy" Mock.array_params false
    (Mock.bound Mock.faulty)
  = (Raise (ValueError "The truth value of an array is ambiguous"),
     Mock.bound Mock.faulty).
Proof.
  exact (set_task_aborted_by_truth_test Mock.sim Mock.cartpole "numpy"
           Mock.array_params false (Mock.bound Mock.faulty)
           (PyObject (Raise (ValueError "The truth value of an array is ambiguous")))
           (ValueError "The truth value of an array is ambiguous")
           eq_refl eq_refl eq_refl eq_refl).
Defined.

(** No world can be constructed: the adapter keeps the faulty task. *)
Lemma set_task_aborted_by_world_witness :
  VecEnvBase.set_task Mock.no_world Mock.cartpole "numpy" ParamsNone true
    (Mock.bound Mock.faulty)
  = (Raise (HostError "no stage"),
     {| self := self (Mock.bound Mock.faulty); host := Mock.boot;
        calls := [CallWorld 1 (1 / 60) "numpy" ParamsNone "cpu"] |}).
Proof.
  assert (Hgpu : reads_flag ParamsNone "use_gpu_pipeline" false false)
    by (right; split; [reflexivity | left; reflexivity]).
  exact (set_task_aborted_by_world Mock.no_world Mock.cartpole "numpy" ParamsNone true
           (Mock.bound Mock.faulty) false (HostError "no stage") Mock.boot
           Hgpu eq_refl).
Defined.

(** The world takes no task: [_world] is the new world 0, [_task] is still
    the faulty task. *)
Lemma set_task_aborted_by_add_task_witness :
  VecEnvBase._world
    (self (snd (VecEnvBase.set_task Mock.no_tasks Mock.cartpole "numpy" ParamsNone true
                  (Mock.bound Mock.faulty)))) = Some 0%nat
  /\ VecEnvBase._task
       (self (snd (VecEnvBase.set_task Mock.no_tasks Mock.cartpole "numpy" ParamsNone
                     true (Mock.bound Mock.faulty)))) = Some Mock.faulty.
Proof.
  assert (Hgpu : reads_flag ParamsNone "use_gpu_pipeline" false false)
    by (right; split; [reflexivity | left; reflexivity]).
  rewrite (set_task_aborted_by_add_task Mock.no_tasks Mock.cartpole "numpy" ParamsNone
             true (Mock.bound Mock.faulty) false 0%nat
             (HostError "task name should be unique")
             (snd (Mock.fresh Mock.boot)) (snd (Mock.fresh Mock.boot))
             Hgpu eq_refl eq_refl).
  split; reflexivity.
Defined.

(** An array under [enable_viewport]: [set_task] raises with the cartpole
    bound and the world not reset. *)
Lemma set_task_aborted_by_viewport_test_witness :
  fst (VecEnvBase.set_task Mock.sim Mock.cartpole "numpy" Mock.array_viewport_params
         true Mock.unbound)
    = Raise (ValueError "The truth value of an array is ambiguous")
  /\ VecEnvBase._num_envs
       (self (snd (VecEnvBase.set_task Mock.sim Mock.cartpole "numpy"
                     Mock.array_viewport_params true Mock.unbound))) = Some 4
  /\ calls (snd (VecEnvBase.set_task Mock.sim Mock.cartpole "numpy"
                   Mock.array_viewport_params true Mock.unbound))
     = [CallWorld 1 (1 / 60) "numpy" Mock.array_viewport_params "cpu";
        CallAddTask 0%nat "Cartpole"].
Proof.
  assert (Hgpu : reads_flag Mock.array_viewport_params "use_gpu_pipeline" false false)
    by (right; split; [reflexivity | right; split; reflexivity]).
  rewrite (set_task_aborted_by_viewport_test Mock.sim Mock.cartpole "numpy"
             Mock.array_viewport_params true Mock.unbound false 0%nat
             (PyObject (Raise (ValueError "The truth value of an array is ambiguous")))
             (ValueError "The truth value of an array is ambiguous")
             (snd (Mock.fresh Mock.boot)) (snd (Mock.fresh Mock.boot))
             Hgpu eq_refl eq_refl eq_refl eq_refl eq_refl eq_refl).
  repeat split; reflexivity.
Defined.
